(** * google.generativeai.client: configuration and lazy client factory

    A shallow embedding of [src/google/generativeai/client.py]: the
    [_ClientManager] dataclass with its [configure], [make_client],
    [get_default_client] and [get_default_operations_client] methods, the
    module-level [configure] and the module-level accessors.

    Python objects that the module only passes around (credentials,
    request arguments) are opaque tokens.  The generated client library
    [google.ai.generativelanguage] (the [glm] namespace and the class
    constructors), [client_options_lib.from_dict] and the package version
    are collaborators that live outside the module: the class
    [Collaborators] gathers them, and every definition and statement is
    generic in it.  Arguments are passed by value: the aliases a caller
    keeps to a [ClientOptions] or [ClientInfo] object it handed to
    [configure] are not tracked. *)

From stdpp Require Import gmap strings list fin_maps.
From Stdlib Require Import Ascii String DecimalString.

Local Open Scope string_scope.

(** ** Python [str] methods used by the module (ASCII service names) *)

Module PyStr.

Definition is_upper (a : ascii) : bool :=
  let n := nat_of_ascii a in Nat.leb 65 n && Nat.leb n 90.

Definition is_lower (a : ascii) : bool :=
  let n := nat_of_ascii a in Nat.leb 97 n && Nat.leb n 122.

Definition to_lower (a : ascii) : ascii :=
  if is_upper a then ascii_of_nat (nat_of_ascii a + 32) else a.

Definition to_upper (a : ascii) : ascii :=
  if is_lower a then ascii_of_nat (nat_of_ascii a - 32) else a.

(** [s.lower()] *)
Fixpoint lower (s : string) : string :=
  match s with
  | EmptyString => EmptyString
  | String a s' => String (to_lower a) (lower s')
  end.

(** [s.title()]: the first letter of every run of letters is upper-cased,
    the following letters of the run are lower-cased. *)
Fixpoint title_from (prev_cased : bool) (s : string) : string :=
  match s with
  | EmptyString => EmptyString
  | String a s' =>
      if is_upper a || is_lower a
      then String (if prev_cased then to_lower a else to_upper a)
                  (title_from true s')
      else String a (title_from false s')
  end.

Definition title (s : string) : string := title_from false s.

(** [s.startswith(p)] *)
Definition startswith (s p : string) : bool := String.prefix p s.

(** [s.endswith(p)] *)
Definition endswith (s p : string) : bool :=
  String.prefix (String.rev p) (String.rev s).

(** [s.split("_")[0]]: the text before the first underscore, the whole
    string when there is none. *)
Fixpoint split_underscore_0 (s : string) : string :=
  match s with
  | EmptyString => EmptyString
  | String a s' =>
      if Ascii.eqb a "_"%char then EmptyString
      else String a (split_underscore_0 s')
  end.

End PyStr.

(** ** Exceptions and results *)

Inductive exn : Type :=
| ValueError (msg : string)
| AttributeError (msg : string)
| ExternalError (tag : string).

Inductive result (A : Type) : Type :=
| Returned (a : A)
| Raised (e : exn).
Arguments Returned {A} a.
Arguments Raised {A} e.

(** ** Data model *)

(** Metadata: [Sequence[Tuple[str, str]]]. *)
Abbreviation metadata := (list (string * string)).

(** An opaque credentials object. *)
Definition Credentials := string.

(** [client_options_lib.ClientOptions]: the API key, and the other option
    fields, which this module never reads or writes. *)
Record ClientOptions := {
  api_key : option string;
  other_options : list (string * string)
}.

(** [client_options_lib.ClientOptions()] *)
Definition ClientOptions_default : ClientOptions :=
  {| api_key := None; other_options := [] |}.

(** [gapic_v1.client_info.ClientInfo]: only [user_agent] is used here. *)
Record ClientInfo := {
  user_agent : option string
}.

(** The values a [client_config] dict holds under its four keys. *)
Inductive config_value : Type :=
| VCredentials (c : Credentials)
| VTransport (t : string)
| VClientOptions (o : ClientOptions)
| VClientInfo (i : ClientInfo).

(** [client_config: Dict[str, Any]], in insertion order. *)
Abbreviation config := (list (string * config_value)).

(** The [client_options] argument: a dict or a [ClientOptions] object. *)
Inductive client_options_arg : Type :=
| OptionsDict (d : list (string * string))
| OptionsObject (o : ClientOptions).

(** The keyword arguments of [configure]. *)
Record configure_args := {
  arg_api_key : option string;
  arg_credentials : option Credentials;
  arg_transport : option string;
  arg_client_options : option client_options_arg;
  arg_client_info : option ClientInfo;
  arg_default_metadata : metadata
}.

(** [configure()]: every argument at its default. *)
Definition no_args : configure_args :=
  {| arg_api_key := None; arg_credentials := None; arg_transport := None;
     arg_client_options := None; arg_client_info := None;
     arg_default_metadata := [] |}.

(** The two manager instances a run can tell apart: the module-level
    [_client_manager] and any other [_ClientManager] instance. *)
Inductive manager_ref : Type :=
| module_manager
| other_manager.

Global Instance manager_ref_eq_dec : EqDecision manager_ref.
Proof. solve_decision. Defined.

(** What a class namespace ([cls.__dict__]) binds a name to. *)
Inductive member : Type :=
| PlainFunction
| ClassMethod
| StaticMethod
| OtherMember.

(** A client class of the generated library. *)
Record PyClass := {
  cls_name : string;
  cls_dict : gmap string member
}.

(** Callables reachable through [getattr(client, name)]: the operation of
    the class bound to the instance, or the closure [call] built by
    [add_default_metadata_wrapper], which captures [f] and [self]. *)
Inductive callable : Type :=
| BoundMethod (owner : nat) (name : string)
| CallClosure (f : callable) (self : manager_ref).

(** A constructed service client: its identity, its class, the keyword
    arguments it was constructed with and its instance attributes (the
    ones [setattr] installed). *)
Record Client := {
  client_id : nat;
  client_cls : PyClass;
  client_kwargs : config;
  client_dict : gmap string callable
}.

(** Objects held by the cache: a service client, or the operations client
    embedded in the transport of one ([o._transport.operations_client]). *)
Inductive pyobj : Type :=
| ServiceClient (c : Client)
| OperationsClient (owner : pyobj).

(** The dataclass [_ClientManager]. *)
Record ClientManager := {
  client_config : config;
  default_metadata : metadata;
  discuss_client : option pyobj;
  discuss_async_client : option pyobj;
  clients : gmap string pyobj
}.

(** [_ClientManager()] *)
Definition ClientManager_new : ClientManager :=
  {| client_config := []; default_metadata := [];
     discuss_client := None; discuss_async_client := None;
     clients := ∅ |}.

(** The state a call runs in: the two managers, the process environment
    and the counter that gives a new object its identity. *)
Record World := {
  _client_manager : ClientManager;
  other_instance : ClientManager;
  environ : gmap string string;
  next_id : nat
}.

Definition manager (w : World) (r : manager_ref) : ClientManager :=
  match r with
  | module_manager => _client_manager w
  | other_manager => other_instance w
  end.

Definition set_manager (w : World) (r : manager_ref) (m : ClientManager) : World :=
  match r with
  | module_manager =>
      {| _client_manager := m; other_instance := other_instance w;
         environ := environ w; next_id := next_id w |}
  | other_manager =>
      {| _client_manager := _client_manager w; other_instance := m;
         environ := environ w; next_id := next_id w |}
  end.

(** ** Stateful computations that may raise

    A raised exception keeps the mutations done before it. *)

Definition M (A : Type) : Type := World → World * result A.

Definition ret {A} (a : A) : M A := λ w, (w, Returned a).
Definition raise {A} (e : exn) : M A := λ w, (w, Raised e).
Definition bind {A B} (m : M A) (k : A → M B) : M B :=
  λ w, match m w with
       | (w', Returned a) => k a w'
       | (w', Raised e) => (w', Raised e)
       end.
Definition read {A} (f : World → A) : M A := λ w, (w, Returned (f w)).
Definition update (f : World → World) : M unit := λ w, (f w, Returned tt).
Definition lift {A} (r : result A) : M A := λ w, (w, r).

Notation "'do' x <- m ; k" := (bind m (λ x, k))
  (at level 10, x name, m at level 100, k at level 200).
Notation "'run' m ; k" := (bind m (λ _, k))
  (at level 10, m at level 100, k at level 200).

(** Field updates of a manager ([self.f = v]). *)
Definition with_client_config (v : config) (m : ClientManager) : ClientManager :=
  {| client_config := v; default_metadata := default_metadata m;
     discuss_client := discuss_client m;
     discuss_async_client := discuss_async_client m; clients := clients m |}.

Definition with_default_metadata (v : metadata) (m : ClientManager) : ClientManager :=
  {| client_config := client_config m; default_metadata := v;
     discuss_client := discuss_client m;
     discuss_async_client := discuss_async_client m; clients := clients m |}.

Definition with_clients (v : gmap string pyobj) (m : ClientManager) : ClientManager :=
  {| client_config := client_config m; default_metadata := default_metadata m;
     discuss_client := discuss_client m;
     discuss_async_client := discuss_async_client m; clients := v |}.

(** [self.f = ...] as a computation: the field is read when the
    assignment runs. *)
Definition assign (self : manager_ref) (f : ClientManager → ClientManager) : M unit :=
  update (λ w, set_manager w self (f (manager w self))).

(** Python truthiness of an optional string: [None] and the empty string
    are false. *)
Definition truthy (v : option string) : bool :=
  match v with
  | Some (String _ _) => true
  | _ => false
  end.

(** Truthiness of a sequence or a dict: empty is false. *)
Definition nonempty {A} (l : list A) : bool :=
  match l with
  | [] => false
  | _ :: _ => true
  end.

(** [{key: value for key, value in d.items() if value is not None}] *)
Fixpoint drop_none (d : list (string * option config_value)) : config :=
  match d with
  | [] => []
  | (key, Some value) :: d' => (key, value) :: drop_none d'
  | (_, None) :: d' => drop_none d'
  end.

Definition USER_AGENT : string := "genai-py".

(** What reaches the operation of the generated client: the instance it
    is bound to, its name, the arguments and the metadata. *)
Record Invocation := {
  inv_owner : nat;
  inv_operation : string;
  inv_args : list string;
  inv_kwargs : list (string * string);
  inv_metadata : metadata
}.

(** [isinstance(f, types.FunctionType)] and friends on a class member. *)
Definition is_FunctionType (f : member) : bool :=
  match f with PlainFunction => true | _ => false end.
Definition is_classmethod (f : member) : bool :=
  match f with ClassMethod => true | _ => false end.
Definition is_staticmethod (f : member) : bool :=
  match f with StaticMethod => true | _ => false end.

(** The local function [keep] of [make_client]. *)
Definition keep (name : string) (f : member) : bool :=
  if PyStr.startswith name "_" then false
  else if negb (is_FunctionType f) then false
  else if is_classmethod f then false
  else if is_staticmethod f then false
  else true.

(** [getattr(client, name)]: the instance attribute when there is one,
    the method of the class bound to the instance otherwise. *)
Definition getattr (client : Client) (name : string) : callable :=
  match client_dict client !! name with
  | Some f => f
  | None => BoundMethod (client_id client) name
  end.

(** [setattr(client, name, f)] *)
Definition setattr (client : Client) (name : string) (f : callable) : Client :=
  {| client_id := client_id client; client_cls := client_cls client;
     client_kwargs := client_kwargs client;
     client_dict := <[name := f]> (client_dict client) |}.

(** The local function [add_default_metadata_wrapper] of [make_client]:
    the closure [call] over [f] and [self]. *)
Definition add_default_metadata_wrapper (self : manager_ref) (f : callable) : callable :=
  CallClosure f self.

(** Calling a callable in world [w] with positional arguments [args],
    keyword arguments [kwargs] and [metadata=md].  The body of the closure
    is [metadata = list(metadata) + list(self.default_metadata)] followed
    by a call of [f] with the same arguments and [metadata=metadata];
    [self.default_metadata] is read when the call runs. *)
Fixpoint call (w : World) (f : callable)
    (args : list string) (kwargs : list (string * string)) (md : metadata)
    : Invocation :=
  match f with
  | BoundMethod owner name =>
      {| inv_owner := owner; inv_operation := name; inv_args := args;
         inv_kwargs := kwargs; inv_metadata := md |}
  | CallClosure f' self =>
      let md' := (md ++ default_metadata (manager w self))%list in
      call w f' args kwargs md'
  end.

(** One iteration of [for name, value in cls.__dict__.items()]. *)
Definition wrap_member (self : manager_ref) (client : Client)
    (item : string * member) : Client :=
  let '(name, value) := item in
  if negb (keep name value) then client
  else
    let f := getattr client name in
    let f := add_default_metadata_wrapper self f in
    setattr client name f.

(** [o._transport.operations_client] *)
Definition transport_operations_client (o : pyobj) : pyobj := OperationsClient o.

(** The allocation that stands behind an object. *)
Fixpoint root_client (o : pyobj) : Client :=
  match o with
  | ServiceClient c => c
  | OperationsClient o' => root_client o'
  end.

(** [getattr(o, name)] on a cached object.  The operations client has no
    instance attribute installed by this module. *)
Definition getattr_obj (o : pyobj) (name : string) : callable :=
  match o with
  | ServiceClient c => getattr c name
  | OperationsClient _ => BoundMethod (client_id (root_client o)) name
  end.

(** A new object takes the next identity. *)
Definition allocate (w : World) : World :=
  {| _client_manager := _client_manager w; other_instance := other_instance w;
     environ := environ w; next_id := S (next_id w) |}.

(** The object a constructor call returns: no instance attribute yet. *)
Definition new_client (w : World) (cls : PyClass) (kwargs : config) : Client :=
  {| client_id := next_id w; client_cls := cls; client_kwargs := kwargs;
     client_dict := ∅ |}.

(** ** The collaborators

    [__version__] (from the package's [version] module),
    [client_options_lib.from_dict], the namespace of
    [google.ai.generativelanguage], and what constructing a class with
    given keyword arguments raises ([None]: the constructor returns). *)
Class Collaborators := {
  version : string;
  from_dict : list (string * string) → result ClientOptions;
  glm : string → option PyClass;
  cls_init : PyClass → config → option exn
}.

Section Client.

Context `{Collaborators}.

(** Lines 66-70 of [configure]: a dict is converted, [None] becomes a
    default [ClientOptions]. *)
Definition normalise_client_options (o : option client_options_arg)
    : result ClientOptions :=
  match o with
  | Some (OptionsDict d) => from_dict d
  | Some (OptionsObject o) => Returned o
  | None => Returned ClientOptions_default
  end.

(** [_ClientManager.configure] *)
Definition ClientManager_configure (self : manager_ref) (a : configure_args) : M unit :=
  do client_options <- lift (normalise_client_options (arg_client_options a));
  let had_api_key_value := api_key client_options in
  do client_options <-
    (if truthy had_api_key_value then
       match arg_api_key a with
       | Some _ =>
           raise (ValueError
             "You can't set both `api_key` and `client_options['api_key']`.")
       | None => ret client_options
       end
     else
       do key <-
         match arg_api_key a with
         | None => read (λ w, environ w !! "GOOGLE_API_KEY")
         | Some k => ret (Some k)
         end;
       ret {| api_key := key;
              other_options := other_options client_options |});
  let agent := USER_AGENT ++ "/" ++ version in
  let client_info :=
    match arg_client_info a with
    | Some info =>
        match user_agent info with
        | Some (String c s) =>
            {| user_agent := Some (String c s ++ " " ++ agent) |}
        | _ => {| user_agent := Some agent |}
        end
    | None => {| user_agent := Some agent |}
    end in
  let client_config :=
    [ ("credentials", VCredentials <$> arg_credentials a);
      ("transport", VTransport <$> arg_transport a);
      ("client_options", Some (VClientOptions client_options));
      ("client_info", Some (VClientInfo client_info)) ] in
  let client_config := drop_none client_config in
  run assign self (with_client_config client_config);
  run assign self (with_default_metadata (arg_default_metadata a));
  assign self (with_clients ∅).

(** The module-level [configure]: [_client_manager.configure(...)]. *)
Definition configure (a : configure_args) : M unit :=
  ClientManager_configure module_manager a.

(** [getattr(glm, name)] *)
Definition getattr_glm (name : string) : M PyClass :=
  match glm name with
  | Some cls => ret cls
  | None =>
      raise (AttributeError
        ("module 'google.ai.generativelanguage' has no attribute '"
           ++ name ++ "'"))
  end.

(** Calling [cls] with the keyword arguments [kwargs]: the constructor
    raises, or a new object comes to life. *)
Definition construct (cls : PyClass) (kwargs : config) : M Client :=
  λ w, match cls_init cls kwargs with
       | Some e => (w, Raised e)
       | None => (allocate w, Returned (new_client w cls kwargs))
       end.

(** [_ClientManager.make_client] *)
Definition ClientManager_make_client (self : manager_ref) (name : string) : M Client :=
  do cls <-
    (if PyStr.endswith name "_async" then
       let name := PyStr.split_underscore_0 name in
       getattr_glm (PyStr.title name ++ "ServiceAsyncClient")
     else
       getattr_glm (PyStr.title name ++ "ServiceClient"));
  do current <- read (λ w, client_config (manager w self));
  run (if negb (nonempty current) then configure no_args else ret tt);
  do kwargs <- read (λ w, client_config (manager w self));
  do client <- construct cls kwargs;
  do defaults <- read (λ w, default_metadata (manager w self));
  if negb (nonempty defaults) then ret client
  else ret (foldl (wrap_member self) client (map_to_list (cls_dict cls))).

(** Lines 157-161 of [get_default_client]: the cache lookup, and
    construction on a miss. *)
Definition lookup_or_make (self : manager_ref) (name : string) : M pyobj :=
  do cached <- read (λ w, clients (manager w self) !! name);
  match cached with
  | Some client => ret client
  | None =>
      do client <- ClientManager_make_client self name;
      run assign self
        (λ m, with_clients (<[name := ServiceClient client]> (clients m)) m);
      ret (ServiceClient client)
  end.

(** [_ClientManager.get_default_operations_client].  Its call
    [self.get_default_client("Model")] lower-cases the name to ["model"],
    which is not ["operations"], and so runs lines 157-161. *)
Definition ClientManager_get_default_operations_client (self : manager_ref) : M pyobj :=
  do cached <- read (λ w, clients (manager w self) !! "operations");
  match cached with
  | Some client => ret client
  | None =>
      do model_client <- lookup_or_make self (PyStr.lower "Model");
      let client := transport_operations_client model_client in
      run assign self
        (λ m, with_clients (<["operations" := client]> (clients m)) m);
      ret client
  end.

(** [_ClientManager.get_default_client] *)
Definition ClientManager_get_default_client (self : manager_ref) (name : string) : M pyobj :=
  let name := PyStr.lower name in
  if String.eqb name "operations" then
    ClientManager_get_default_operations_client self
  else lookup_or_make self name.

(** Module-level accessors. *)
Definition get_default_discuss_client : M pyobj :=
  ClientManager_get_default_client module_manager "discuss".
Definition get_default_discuss_async_client : M pyobj :=
  ClientManager_get_default_client module_manager "discuss_async".
Definition get_default_generative_client : M pyobj :=
  ClientManager_get_default_client module_manager "generative".
Definition get_default_generative_async_client : M pyobj :=
  ClientManager_get_default_client module_manager "generative_async".
Definition get_default_text_client : M pyobj :=
  ClientManager_get_default_client module_manager "text".
Definition get_default_operations_client : M pyobj :=
  ClientManager_get_default_client module_manager "operations".
Definition get_default_model_client : M pyobj :=
  ClientManager_get_default_client module_manager "model".
Definition get_default_retriever_client : M pyobj :=
  ClientManager_get_default_client module_manager "retriever".
Definition get_default_retriever_async_client : M pyobj :=
  ClientManager_get_default_client module_manager "retriever_async".

(** The world right after the module is imported (lines 214-215):
    [_client_manager = _ClientManager()] and [_client_manager.configure()]. *)
Definition import_module (env : gmap string string) : World :=
  fst (ClientManager_configure module_manager no_args
         {| _client_manager := ClientManager_new;
            other_instance := ClientManager_new;
            environ := env; next_id := 0 |}).

End Client.

(** ** Vocabulary of the statements *)

(** [d.get(key)] on a dict kept as an association list. *)
Fixpoint dict_get {V} (key : string) (d : list (string * V)) : option V :=
  match d with
  | [] => None
  | (k, v) :: d' => if String.eqb k key then Some v else dict_get key d'
  end.

(** The class name [make_client] looks up for [name] (lines 109-113). *)
Definition client_class_name (name : string) : string :=
  if PyStr.endswith name "_async"
  then PyStr.title (PyStr.split_underscore_0 name) ++ "ServiceAsyncClient"
  else PyStr.title name ++ "ServiceClient".

(** The service whose client a lookup of [name] constructs: the model
    service for ["operations"], the lower-cased name otherwise. *)
Definition service_name (name : string) : string :=
  if String.eqb (PyStr.lower name) "operations" then "model"
  else PyStr.lower name.

(** The object [o] was constructed before the world reached [w]. *)
Definition allocated (w : World) (o : pyobj) : Prop :=
  client_id (root_client o) < next_id w.

(** Every cached object was constructed before. *)
Definition cache_allocated (w : World) : Prop :=
  ∀ r key o, clients (manager w r) !! key = Some o → allocated w o.

(** The module-level manager caches nothing while it has no snapshot. *)
Definition coherent (w : World) : Prop :=
  client_config (_client_manager w) = [] → clients (_client_manager w) = ∅.

(** What every reachable world satisfies. *)
Definition invariant (w : World) : Prop := coherent w ∧ cache_allocated w.

(** The manager a successful [configure] leaves behind. *)
Definition configured (a : configure_args) (cfg : config) (m : ClientManager)
    : ClientManager :=
  {| client_config := cfg; default_metadata := arg_default_metadata a;
     discuss_client := discuss_client m;
     discuss_async_client := discuss_async_client m; clients := ∅ |}.

(** The client the loop of lines 143-148 produces from a new client. *)
Definition wrapped (self : manager_ref) (c : Client) : Client :=
  foldl (wrap_member self) c (map_to_list (cls_dict (client_cls c))).

(** [self.clients[key] = o] *)
Definition store (self : manager_ref) (key : string) (o : pyobj) (w : World) : World :=
  set_manager w self
    (with_clients (<[key := o]> (clients (manager w self))) (manager w self)).

Section Vocabulary.

Context `{Collaborators}.

(** The world in which [make_client] reaches the constructor call of
    line 119: the one it was called in, or the one the [configure()] of
    line 117 leaves. *)
Definition before_construction (self : manager_ref) (w : World) : World :=
  if nonempty (client_config (manager w self)) then w
  else fst (configure no_args w).

(** The client [make_client] returns for the class [cls] when the
    constructor returns: wrapped when the default metadata is not empty. *)
Definition made (self : manager_ref) (w : World) (cls : PyClass) : Client :=
  let w0 := before_construction self w in
  let kwargs := client_config (manager w0 self) in
  if nonempty (default_metadata (manager w0 self))
  then wrapped self (new_client w0 cls kwargs)
  else new_client w0 cls kwargs.

(** The snapshot a [configure()] without arguments stores. *)
Definition default_snapshot (w : World) : config :=
  [ ("client_options",
     VClientOptions {| api_key := environ w !! "GOOGLE_API_KEY";
                       other_options := [] |});
    ("client_info",
     VClientInfo {| user_agent := Some (USER_AGENT ++ "/" ++ version) |}) ].

(** One call of the public interface. *)
Inductive step : World → World → Prop :=
| step_configure self a w :
    step w (fst (ClientManager_configure self a w))
| step_make_client self name w :
    step w (fst (ClientManager_make_client self name w))
| step_get_default_client self name w :
    step w (fst (ClientManager_get_default_client self name w))
| step_get_default_operations_client self w :
    step w (fst (ClientManager_get_default_operations_client self w)).

(** The worlds a process reaches after importing the module. *)
Inductive reachable (env : gmap string string) : World → Prop :=
| reachable_import : reachable env (import_module env)
| reachable_step w w' : reachable env w → step w w' → reachable env w'.

End Vocabulary.

(** ** A small library to run the module against *)

Module Sample.

Definition namespace : gmap string member :=
  list_to_map
    [ ("generate_content", PlainFunction);
      ("count_tokens", PlainFunction);
      ("from_service_account_file", ClassMethod);
      ("get_transport_class", StaticMethod);
      ("_validate", PlainFunction);
      ("transport", OtherMember) ].

Definition classes : list string :=
  [ "DiscussServiceClient"; "DiscussServiceAsyncClient";
    "GenerativeServiceClient"; "GenerativeServiceAsyncClient";
    "TextServiceClient"; "ModelServiceClient";
    "RetrieverServiceClient"; "RetrieverServiceAsyncClient" ].

Definition lookup_class (name : string) : option PyClass :=
  if bool_decide (name ∈ classes)
  then Some {| cls_name := name; cls_dict := namespace |}
  else None.

Definition options_from_dict (d : list (string * string)) : result ClientOptions :=
  Returned {| api_key := dict_get "api_key" d;
              other_options :=
                filter (λ kv, negb (String.eqb (fst kv) "api_key")) d |}.

(** A constructor that rejects the API key ["revoked"]. *)
Definition init (cls : PyClass) (kwargs : config) : option exn :=
  match dict_get "client_options" kwargs with
  | Some (VClientOptions o) =>
      if bool_decide (api_key o = Some "revoked")
      then Some (ExternalError "DefaultCredentialsError")
      else None
  | _ => None
  end.

Definition library : Collaborators :=
  {| version := "0.3.2"; from_dict := options_from_dict;
     glm := lookup_class; cls_init := init |}.

Definition with_key (k : string) : configure_args :=
  {| arg_api_key := Some k; arg_credentials := None; arg_transport := None;
     arg_client_options := None; arg_client_info := None;
     arg_default_metadata := [] |}.

Definition with_metadata (md : metadata) : configure_args :=
  {| arg_api_key := None; arg_credentials := None; arg_transport := None;
     arg_client_options := None; arg_client_info := None;
     arg_default_metadata := md |}.

Definition with_key_and_options (k k' : string) : configure_args :=
  {| arg_api_key := Some k; arg_credentials := None; arg_transport := None;
     arg_client_options := Some (OptionsDict [("api_key", k')]);
     arg_client_info := None; arg_default_metadata := [] |}.

(** The environment with [GOOGLE_API_KEY=Z], and the empty one. *)
Definition env_Z : gmap string string := {[ "GOOGLE_API_KEY" := "Z" ]}.
Definition env_unset : gmap string string := ∅.

Definition start : World := @import_module library env_Z.

Definition generative_class : PyClass :=
  {| cls_name := "GenerativeServiceClient"; cls_dict := namespace |}.
Definition model_class : PyClass :=
  {| cls_name := "ModelServiceClient"; cls_dict := namespace |}.
Definition text_class : PyClass :=
  {| cls_name := "TextServiceClient"; cls_dict := namespace |}.

(** After [configure(default_metadata=[("d","1")])]. *)
Definition metadata_world : World :=
  fst (@ClientManager_configure library module_manager
         (with_metadata [("d", "1")]) start).

(** The generative client [make_client] returns there. *)
Definition wrapped_generative : Client :=
  @made library module_manager metadata_world generative_class.

(** After [configure(api_key="K1")] and a lookup of the generative client. *)
Definition K1_world : World :=
  fst (@ClientManager_configure library module_manager (with_key "K1") start).
Definition client_A : pyobj :=
  ServiceClient (@made library module_manager K1_world generative_class).
Definition K1_cached_world : World :=
  fst (@ClientManager_get_default_client library module_manager "generative"
         K1_world).

(** After [configure(api_key="revoked")]: constructors raise. *)
Definition revoked_world : World :=
  fst (@ClientManager_configure library module_manager (with_key "revoked")
         K1_cached_world).

(** The other manager configured with default metadata. *)
Definition other_metadata_world : World :=
  fst (@ClientManager_configure library other_manager
         (with_metadata [("d", "1")]) start).

End Sample.

(** ** google.generativeai.embedding and google.generativeai.types.safety_types

    The converters take an enum member, an int or a string
    ([Union[str, int, Enum]]).  The enums come from the generated library;
    they are modelled with the members the tables of the two files name. *)

Inductive enum_options (E : Type) : Type :=
| OfMember (e : E)
| OfInt (z : Z)
| OfStr (s : string).
Arguments OfMember {E} e.
Arguments OfInt {E} z.
Arguments OfStr {E} s.

Global Instance enum_options_eq_dec {E} `{EqDecision E} : EqDecision (enum_options E).
Proof. solve_decision. Defined.

(** [x.lower()] under [isinstance(x, str)]. *)
Definition lower_if_str {E} (x : enum_options E) : enum_options E :=
  match x with
  | OfStr s => OfStr (PyStr.lower s)
  | _ => x
  end.

(** [d[k]] on a dict written as a literal: the last binding of a key is
    the one the dict holds; [None] stands for [KeyError]. *)
Fixpoint getitem {K V} `{EqDecision K} (d : list (K * V)) (k : K) : option V :=
  match d with
  | [] => None
  | (k', v) :: d' =>
      match getitem d' k with
      | Some v' => Some v'
      | None => if decide (k' = k) then Some v else None
      end
  end.

(** [str(n)] for an int. *)
Definition str_of_int (n : Z) : string := NilZero.string_of_int (Z.to_int n).

Module Embedding.

Definition EMBEDDING_MAX_BATCH_SIZE : Z := 100.

Inductive TaskType : Type :=
| TASK_TYPE_UNSPECIFIED
| RETRIEVAL_QUERY
| RETRIEVAL_DOCUMENT
| SEMANTIC_SIMILARITY
| CLASSIFICATION
| CLUSTERING.

Global Instance TaskType_eq_dec : EqDecision TaskType.
Proof. solve_decision. Defined.

Abbreviation EmbeddingTaskTypeOptions := (enum_options TaskType).

Inductive error : Type :=
| KeyError (key : EmbeddingTaskTypeOptions)
| ValueError (msg : string).

Definition _EMBEDDING_TASK_TYPE : list (EmbeddingTaskTypeOptions * TaskType) :=
  [ (OfMember TASK_TYPE_UNSPECIFIED, TASK_TYPE_UNSPECIFIED);
    (OfInt 0, TASK_TYPE_UNSPECIFIED);
    (OfStr "task_type_unspecified", TASK_TYPE_UNSPECIFIED);
    (OfStr "unspecified", TASK_TYPE_UNSPECIFIED);
    (OfMember RETRIEVAL_QUERY, RETRIEVAL_QUERY);
    (OfInt 1, RETRIEVAL_QUERY);
    (OfStr "retrieval_query", RETRIEVAL_QUERY);
    (OfStr "query", RETRIEVAL_QUERY);
    (OfMember RETRIEVAL_DOCUMENT, RETRIEVAL_DOCUMENT);
    (OfInt 2, RETRIEVAL_DOCUMENT);
    (OfStr "retrieval_document", RETRIEVAL_DOCUMENT);
    (OfStr "document", RETRIEVAL_DOCUMENT);
    (OfMember SEMANTIC_SIMILARITY, SEMANTIC_SIMILARITY);
    (OfInt 3, SEMANTIC_SIMILARITY);
    (OfStr "semantic_similarity", SEMANTIC_SIMILARITY);
    (OfStr "similarity", SEMANTIC_SIMILARITY);
    (OfMember CLASSIFICATION, CLASSIFICATION);
    (OfInt 4, CLASSIFICATION);
    (OfStr "classification", CLASSIFICATION);
    (OfMember CLUSTERING, CLUSTERING);
    (OfInt 5, CLUSTERING);
    (OfStr "clustering", CLUSTERING) ].

(** [to_task_type] *)
Definition to_task_type (x : EmbeddingTaskTypeOptions) : error + TaskType :=
  let x := lower_if_str x in
  match getitem _EMBEDDING_TASK_TYPE x with
  | Some t => inr t
  | None => inl (KeyError x)
  end.

(** The loop of [_batched]: [batch] is the batch being filled, the result
    is the list of the batches yielded. *)
Fixpoint batched_loop {T} (n : Z) (batch : list T) (iterable : list T)
    : list (list T) :=
  match iterable with
  | [] => if nonempty batch then [batch] else []
  | item :: rest =>
      let batch := (batch ++ [item])%list in
      if (Z.of_nat (List.length batch) =? n)%Z
      then batch :: batched_loop n [] rest
      else batched_loop n batch rest
  end.

(** [_batched] (the definition the module falls back to when
    [itertools.batched] is missing), run to the end on a finite iterable:
    the batches it yields, or the exception it raises. *)
Definition _batched {T} (iterable : list T) (n : Z) : error + list (list T) :=
  if (n <? 1)%Z
  then inl (ValueError ("Batch size `n` must be >0, got: " ++ str_of_int n))
  else inr (batched_loop n [] iterable).

End Embedding.

Module SafetyTypes.

Inductive HarmCategory : Type :=
| HARM_CATEGORY_UNSPECIFIED
| HARM_CATEGORY_DEROGATORY
| HARM_CATEGORY_TOXICITY
| HARM_CATEGORY_VIOLENCE
| HARM_CATEGORY_SEXUAL
| HARM_CATEGORY_MEDICAL
| HARM_CATEGORY_DANGEROUS
| HARM_CATEGORY_HARASSMENT
| HARM_CATEGORY_HATE_SPEECH
| HARM_CATEGORY_SEXUALLY_EXPLICIT
| HARM_CATEGORY_DANGEROUS_CONTENT.

Inductive HarmBlockThreshold : Type :=
| HARM_BLOCK_THRESHOLD_UNSPECIFIED
| BLOCK_LOW_AND_ABOVE
| BLOCK_MEDIUM_AND_ABOVE
| BLOCK_ONLY_HIGH
| BLOCK_NONE.

Global Instance HarmCategory_eq_dec : EqDecision HarmCategory.
Proof. solve_decision. Defined.

Global Instance HarmBlockThreshold_eq_dec : EqDecision HarmBlockThreshold.
Proof. solve_decision. Defined.

Abbreviation HarmCategoryOptions := (enum_options HarmCategory).
Abbreviation HarmBlockThresholdOptions := (enum_options HarmBlockThreshold).

(** The key a [KeyError] reports: a category, a threshold, or the name of
    a field a setting dict lacks. *)
Inductive missing_key : Type :=
| CategoryKey (k : HarmCategoryOptions)
| ThresholdKey (k : HarmBlockThresholdOptions)
| FieldKey (name : string).

Inductive error : Type :=
| KeyError (key : missing_key)
| ValueError (msg : string).

Definition _OLD_HARM_CATEGORIES : list (HarmCategoryOptions * HarmCategory) :=
  [ (OfMember HARM_CATEGORY_UNSPECIFIED, HARM_CATEGORY_UNSPECIFIED);
    (OfInt 0, HARM_CATEGORY_UNSPECIFIED);
    (OfStr "harm_category_unspecified", HARM_CATEGORY_UNSPECIFIED);
    (OfStr "unspecified", HARM_CATEGORY_UNSPECIFIED);

    (OfMember HARM_CATEGORY_DEROGATORY, HARM_CATEGORY_DEROGATORY);
    (OfInt 1, HARM_CATEGORY_DEROGATORY);
    (OfStr "harm_category_derogatory", HARM_CATEGORY_DEROGATORY);
    (OfStr "derogatory", HARM_CATEGORY_DEROGATORY);

    (OfMember HARM_CATEGORY_TOXICITY, HARM_CATEGORY_TOXICITY);
    (OfInt 2, HARM_CATEGORY_TOXICITY);
    (OfStr "harm_category_toxicity", HARM_CATEGORY_TOXICITY);
    (OfStr "toxicity", HARM_CATEGORY_TOXICITY);
    (OfStr "toxic", HARM_CATEGORY_TOXICITY);

    (OfMember HARM_CATEGORY_VIOLENCE, HARM_CATEGORY_VIOLENCE);
    (OfInt 3, HARM_CATEGORY_VIOLENCE);
    (OfStr "harm_category_violence", HARM_CATEGORY_VIOLENCE);
    (OfStr "violence", HARM_CATEGORY_VIOLENCE);
    (OfStr "violent", HARM_CATEGORY_VIOLENCE);

    (OfMember HARM_CATEGORY_SEXUAL, HARM_CATEGORY_SEXUAL);
    (OfInt 4, HARM_CATEGORY_SEXUAL);
    (OfStr "harm_category_sexual", HARM_CATEGORY_SEXUAL);
    (OfStr "sexual", HARM_CATEGORY_SEXUAL);
    (OfStr "sex", HARM_CATEGORY_SEXUAL);

    (OfMember HARM_CATEGORY_MEDICAL, HARM_CATEGORY_MEDICAL);
    (OfInt 5, HARM_CATEGORY_MEDICAL);
    (OfStr "harm_category_medical", HARM_CATEGORY_MEDICAL);
    (OfStr "medical", HARM_CATEGORY_MEDICAL);
    (OfStr "med", HARM_CATEGORY_MEDICAL);

    (OfMember HARM_CATEGORY_DANGEROUS, HARM_CATEGORY_DANGEROUS);
    (OfInt 6, HARM_CATEGORY_DANGEROUS);
    (OfStr "harm_category_dangerous", HARM_CATEGORY_DANGEROUS);
    (OfStr "dangerous", HARM_CATEGORY_DANGEROUS);
    (OfStr "danger", HARM_CATEGORY_DANGEROUS) ].

Definition _NEW_HARM_CATEGORIES : list (HarmCategoryOptions * HarmCategory) :=
  [ (OfInt 7, HARM_CATEGORY_HARASSMENT);
    (OfMember HARM_CATEGORY_HARASSMENT, HARM_CATEGORY_HARASSMENT);
    (OfStr "harm_category_harassment", HARM_CATEGORY_HARASSMENT);
    (OfStr "harassment", HARM_CATEGORY_HARASSMENT);

    (OfInt 8, HARM_CATEGORY_HATE_SPEECH);
    (OfMember HARM_CATEGORY_HATE_SPEECH, HARM_CATEGORY_HATE_SPEECH);
    (OfStr "harm_category_hate_speech", HARM_CATEGORY_HATE_SPEECH);
    (OfStr "hate_speech", HARM_CATEGORY_HATE_SPEECH);
    (OfStr "hate", HARM_CATEGORY_HATE_SPEECH);

    (OfInt 9, HARM_CATEGORY_SEXUALLY_EXPLICIT);
    (OfMember HARM_CATEGORY_SEXUALLY_EXPLICIT, HARM_CATEGORY_SEXUALLY_EXPLICIT);
    (OfStr "harm_category_sexually_explicit", HARM_CATEGORY_SEXUALLY_EXPLICIT);
    (OfStr "harm_category_sexual", HARM_CATEGORY_SEXUALLY_EXPLICIT);
    (OfStr "sexual", HARM_CATEGORY_SEXUALLY_EXPLICIT);
    (OfStr "sex", HARM_CATEGORY_SEXUALLY_EXPLICIT);

    (OfInt 10, HARM_CATEGORY_DANGEROUS_CONTENT);
    (OfMember HARM_CATEGORY_DANGEROUS_CONTENT, HARM_CATEGORY_DANGEROUS_CONTENT);
    (OfStr "harm_category_dangerous_content", HARM_CATEGORY_DANGEROUS_CONTENT);
    (OfStr "harm_category_dangerous", HARM_CATEGORY_DANGEROUS_CONTENT);
    (OfStr "dangerous", HARM_CATEGORY_DANGEROUS_CONTENT);
    (OfStr "danger", HARM_CATEGORY_DANGEROUS_CONTENT) ].

(** [to_old_harm_category] *)
Definition to_old_harm_category (x : HarmCategoryOptions) : error + HarmCategory :=
  let x := lower_if_str x in
  match getitem _OLD_HARM_CATEGORIES x with
  | Some c => inr c
  | None => inl (KeyError (CategoryKey x))
  end.

(** [to_new_harm_category] *)
Definition to_new_harm_category (x : HarmCategoryOptions) : error + HarmCategory :=
  let x := lower_if_str x in
  match getitem _NEW_HARM_CATEGORIES x with
  | Some c => inr c
  | None => inl (KeyError (CategoryKey x))
  end.

(** [to_harm_category] *)
Definition to_harm_category (x : HarmCategoryOptions) (harm_category_set : string)
    : error + HarmCategory :=
  if String.eqb harm_category_set "old" then to_old_harm_category x
  else if String.eqb harm_category_set "new" then to_new_harm_category x
  else inl (ValueError "harm_category_set must be 'new' or 'old'").

Definition _BLOCK_THRESHOLDS
    : list (HarmBlockThresholdOptions * HarmBlockThreshold) :=
  [ (OfMember HARM_BLOCK_THRESHOLD_UNSPECIFIED, HARM_BLOCK_THRESHOLD_UNSPECIFIED);
    (OfInt 0, HARM_BLOCK_THRESHOLD_UNSPECIFIED);
    (OfStr "harm_block_threshold_unspecified", HARM_BLOCK_THRESHOLD_UNSPECIFIED);
    (OfStr "block_threshold_unspecified", HARM_BLOCK_THRESHOLD_UNSPECIFIED);
    (OfStr "unspecified", HARM_BLOCK_THRESHOLD_UNSPECIFIED);

    (OfMember BLOCK_LOW_AND_ABOVE, BLOCK_LOW_AND_ABOVE);
    (OfInt 1, BLOCK_LOW_AND_ABOVE);
    (OfStr "block_low_and_above", BLOCK_LOW_AND_ABOVE);
    (OfStr "low", BLOCK_LOW_AND_ABOVE);

    (OfMember BLOCK_MEDIUM_AND_ABOVE, BLOCK_MEDIUM_AND_ABOVE);
    (OfInt 2, BLOCK_MEDIUM_AND_ABOVE);
    (OfStr "block_medium_and_above", BLOCK_MEDIUM_AND_ABOVE);
    (OfStr "medium", BLOCK_MEDIUM_AND_ABOVE);
    (OfStr "med", BLOCK_MEDIUM_AND_ABOVE);

    (OfMember BLOCK_ONLY_HIGH, BLOCK_ONLY_HIGH);
    (OfInt 3, BLOCK_ONLY_HIGH);
    (OfStr "block_only_high", BLOCK_ONLY_HIGH);
    (OfStr "high", BLOCK_ONLY_HIGH);

    (OfMember BLOCK_NONE, BLOCK_NONE);
    (OfInt 4, BLOCK_NONE);
    (OfStr "block_none", BLOCK_NONE) ].

(** [to_block_threshold] *)
Definition to_block_threshold (x : HarmBlockThresholdOptions)
    : error + HarmBlockThreshold :=
  let x := lower_if_str x in
  match getitem _BLOCK_THRESHOLDS x with
  | Some t => inr t
  | None => inl (KeyError (ThresholdKey x))
  end.

(** A [LooseSafetySettingDict] as it arrives: either field may be missing. *)
Record LooseSafetySettingDict := {
  loose_category : option HarmCategoryOptions;
  loose_threshold : option HarmBlockThresholdOptions
}.

(** [SafetySettingOptions]: [None], a mapping (its items, in order) or an
    iterable of setting dicts. *)
Inductive SafetySettingOptions : Type :=
| NoSettings
| EasySafetySetting (items : list (HarmCategoryOptions * HarmBlockThresholdOptions))
| LooseSettings (dicts : list LooseSafetySettingDict).

(** [SafetySettingDict] *)
Record SafetySettingDict := {
  category : HarmCategory;
  threshold : HarmBlockThreshold
}.

(** [d[name]] on a setting dict. *)
Definition field {V} (name : string) (v : option V) : error + V :=
  match v with
  | Some x => inr x
  | None => inl (KeyError (FieldKey name))
  end.

(** The category and the threshold of one entry, the category first. *)
Definition convert_pair (harm_category_set : string)
    (key : error + HarmCategoryOptions) (value : error + HarmBlockThresholdOptions)
    : error + HarmCategory * HarmBlockThreshold :=
  match key with
  | inl e => inl e
  | inr k =>
      match to_harm_category k harm_category_set with
      | inl e => inl e
      | inr c =>
          match value with
          | inl e => inl e
          | inr v =>
              match to_block_threshold v with
              | inl e => inl e
              | inr t => inr (c, t)
              end
          end
      end
  end.

(** [d[k] = v] on a dict kept as an association list: a key that is there
    keeps its place and takes the new value. *)
Fixpoint setitem {K V} `{EqDecision K} (d : list (K * V)) (k : K) (v : V)
    : list (K * V) :=
  match d with
  | [] => [(k, v)]
  | (k', v') :: d' =>
      if decide (k' = k) then (k', v) :: d' else (k', v') :: setitem d' k v
  end.

(** The entries of a [SafetySettingOptions] that is not [None], as the
    comprehensions read them. *)
Definition entries (settings : SafetySettingOptions)
    : list ((error + HarmCategoryOptions) * (error + HarmBlockThresholdOptions)) :=
  match settings with
  | NoSettings => []
  | EasySafetySetting items => (λ kv, (inr (fst kv), inr (snd kv))) <$> items
  | LooseSettings dicts =>
      (λ d, (field "category" (loose_category d),
             field "threshold" (loose_threshold d))) <$> dicts
  end.

(** A dict comprehension over the entries, from the dict built so far. *)
Fixpoint dict_comprehension (harm_category_set : string)
    (acc : list (HarmCategory * HarmBlockThreshold))
    (l : list ((error + HarmCategoryOptions) * (error + HarmBlockThresholdOptions)))
    : error + list (HarmCategory * HarmBlockThreshold) :=
  match l with
  | [] => inr acc
  | (key, value) :: l' =>
      match convert_pair harm_category_set key value with
      | inl e => inl e
      | inr (c, t) => dict_comprehension harm_category_set (setitem acc c t) l'
      end
  end.

(** A list comprehension over the entries. *)
Fixpoint list_comprehension (harm_category_set : string)
    (l : list ((error + HarmCategoryOptions) * (error + HarmBlockThresholdOptions)))
    : error + list SafetySettingDict :=
  match l with
  | [] => inr []
  | (key, value) :: l' =>
      match convert_pair harm_category_set key value with
      | inl e => inl e
      | inr (c, t) =>
          match list_comprehension harm_category_set l' with
          | inl e => inl e
          | inr rest => inr ({| category := c; threshold := t |} :: rest)
          end
      end
  end.

(** [to_easy_safety_dict] *)
Definition to_easy_safety_dict (settings : SafetySettingOptions)
    (harm_category_set : string)
    : error + list (HarmCategory * HarmBlockThreshold) :=
  match settings with
  | NoSettings => inr []
  | _ => dict_comprehension harm_category_set [] (entries settings)
  end.

(** [normalize_safety_settings] *)
Definition normalize_safety_settings (settings : SafetySettingOptions)
    (harm_category_set : string) : error + option (list SafetySettingDict) :=
  match settings with
  | NoSettings => inr None
  | _ =>
      match list_comprehension harm_category_set (entries settings) with
      | inl e => inl e
      | inr l => inr (Some l)
      end
  end.

End SafetyTypes.

(** ** Vocabulary of the further properties *)

(** What [configure] puts in front of its own tag in the user agent: the
    caller's user agent and a space when the caller gave a non-empty one,
    nothing otherwise. *)
Definition agent_prefix (info : option ClientInfo) : string :=
  match info with
  | Some {| user_agent := Some (String c s) |} => String c s ++ " "
  | _ => EmptyString
  end.

(** The categories of the old set and of the new set. *)
Definition old_categories : list SafetyTypes.HarmCategory :=
  [ SafetyTypes.HARM_CATEGORY_UNSPECIFIED; SafetyTypes.HARM_CATEGORY_DEROGATORY;
    SafetyTypes.HARM_CATEGORY_TOXICITY; SafetyTypes.HARM_CATEGORY_VIOLENCE;
    SafetyTypes.HARM_CATEGORY_SEXUAL; SafetyTypes.HARM_CATEGORY_MEDICAL;
    SafetyTypes.HARM_CATEGORY_DANGEROUS ].

Definition new_categories : list SafetyTypes.HarmCategory :=
  [ SafetyTypes.HARM_CATEGORY_HARASSMENT; SafetyTypes.HARM_CATEGORY_HATE_SPEECH;
    SafetyTypes.HARM_CATEGORY_SEXUALLY_EXPLICIT;
    SafetyTypes.HARM_CATEGORY_DANGEROUS_CONTENT ].

(** The settings of a normalised list as (category, threshold) pairs. *)
Definition setting_pairs (l : list SafetyTypes.SafetySettingDict)
    : list (SafetyTypes.HarmCategory * SafetyTypes.HarmBlockThreshold) :=
  (λ x, (SafetyTypes.category x, SafetyTypes.threshold x)) <$> l.

(** A normalised list written into a dict, setting after setting. *)
Definition collapse (l : list SafetyTypes.SafetySettingDict)
    : list (SafetyTypes.HarmCategory * SafetyTypes.HarmBlockThreshold) :=
  foldl (λ d x, SafetyTypes.setitem d (SafetyTypes.category x) (SafetyTypes.threshold x))
    [] l.

(** The string has no underscore. *)
Definition no_underscore (s : string) : Prop :=
  Forall (λ c, c ≠ "_"%char) (list_ascii_of_string s).

(** ** Inputs of the further properties *)

Module Scenario.

Definition with_client_info (agent : string) : configure_args :=
  {| arg_api_key := None; arg_credentials := None; arg_transport := None;
     arg_client_options := None;
     arg_client_info := Some {| user_agent := Some agent |};
     arg_default_metadata := [] |}.

Definition with_credentials_and_transport : configure_args :=
  {| arg_api_key := None; arg_credentials := Some "token";
     arg_transport := Some "rest"; arg_client_options := None;
     arg_client_info := None; arg_default_metadata := [] |}.

(** After a lookup of the model client on the started module. *)
Definition model_world : World :=
  fst (@ClientManager_get_default_client Sample.library module_manager "model"
         Sample.start).
Definition model_client : pyobj :=
  ServiceClient (@made Sample.library module_manager Sample.start Sample.model_class).

Definition text_client : pyobj :=
  ServiceClient
    (@made Sample.library module_manager Sample.K1_cached_world Sample.text_class).

Definition generative_async_class : PyClass :=
  {| cls_name := "GenerativeServiceAsyncClient"; cls_dict := Sample.namespace |}.

Definition seven : list nat := [1; 2; 3; 4; 5; 6; 7].

Definition easy_settings : SafetyTypes.SafetySettingOptions :=
  SafetyTypes.EasySafetySetting
    [ (OfStr "sex", OfStr "low"); (OfInt 9, OfStr "HIGH");
      (OfStr "hate", OfInt 4) ].

End Scenario.

(** ** Properties *)

Example lower_Model : PyStr.lower "Model" = "model".
Proof. reflexivity. Qed.

Example title_generative : PyStr.title "generative" = "Generative".
Proof. reflexivity. Qed.

Example title_two_words : PyStr.title "foo_bAr" = "Foo_Bar".
Proof. reflexivity. Qed.

Example endswith_async :
  PyStr.endswith "generative_async" "_async" = true
  ∧ PyStr.endswith "generative" "_async" = false
  ∧ PyStr.endswith "sync" "_async" = false.
Proof. repeat split; reflexivity. Qed.

Example split_async : PyStr.split_underscore_0 "generative_async" = "generative".
Proof. reflexivity. Qed.

Lemma manager_set_manager w r m : manager (set_manager w r m) r = m.
Proof. by destruct r. Qed.

Lemma manager_set_manager_ne w r r' m :
  r ≠ r' → manager (set_manager w r m) r' = manager w r'.
Proof. by destruct r, r'. Qed.

Lemma set_manager_twice w r m m' :
  set_manager (set_manager w r m) r m' = set_manager w r m'.
Proof. by destruct r. Qed.

Lemma next_id_set_manager w r m : next_id (set_manager w r m) = next_id w.
Proof. by destruct r. Qed.

Lemma environ_set_manager w r m : environ (set_manager w r m) = environ w.
Proof. by destruct r. Qed.

Lemma nonempty_false {A} (l : list A) : nonempty l = false ↔ l = [].
Proof. by destruct l. Qed.

Lemma nonempty_true {A} (l : list A) : nonempty l = true ↔ l ≠ [].
Proof. by destruct l. Qed.

Ltac unfold_monad :=
  unfold assign in *; unfold bind, ret, raise, read, update, lift in *;
  cbn beta iota zeta in *.

Section Properties.

Context `{Collaborators}.

Implicit Types (w : World) (self : manager_ref) (a : configure_args).

(** *** [configure] *)

Lemma configure_outcome self a w :
  (∃ e, ClientManager_configure self a w = (w, Raised e))
  ∨ (∃ options info,
       ClientManager_configure self a w =
         (set_manager w self
            (configured a
               (drop_none
                  [ ("credentials", VCredentials <$> arg_credentials a);
                    ("transport", VTransport <$> arg_transport a);
                    ("client_options", Some (VClientOptions options));
                    ("client_info", Some (VClientInfo info)) ])
               (manager w self)),
          Returned tt)).
Proof.
  unfold ClientManager_configure. unfold_monad.
  destruct (normalise_client_options (arg_client_options a)) as [o|e];
    [|left; by eexists].
  destruct (truthy (api_key o)).
  - destruct (arg_api_key a); [left; by eexists|].
    right. do 2 eexists. rewrite !manager_set_manager, !set_manager_twice.
    reflexivity.
  - right. destruct (arg_api_key a); do 2 eexists;
      rewrite !manager_set_manager, !set_manager_twice; reflexivity.
Qed.

Lemma drop_none_snapshot a options info :
  drop_none
    [ ("credentials", VCredentials <$> arg_credentials a);
      ("transport", VTransport <$> arg_transport a);
      ("client_options", Some (VClientOptions options));
      ("client_info", Some (VClientInfo info)) ] ≠ [].
Proof. by destruct (arg_credentials a), (arg_transport a). Qed.

(** A successful [configure] stores a snapshot that is not empty, stores
    the default metadata it was given and empties the cache; it touches
    nothing else. *)
Lemma configure_returned self a w w' :
  ClientManager_configure self a w = (w', Returned tt) →
  ∃ cfg, cfg ≠ [] ∧ w' = set_manager w self (configured a cfg (manager w self)).
Proof.
  intros Hc. destruct (configure_outcome self a w) as [[e He]|(o & i & Ho)].
  - congruence.
  - rewrite Ho in Hc. injection Hc as <-. eexists. split; [|reflexivity].
    apply drop_none_snapshot.
Qed.

Lemma configure_raised self a w w' e :
  ClientManager_configure self a w = (w', Raised e) → w' = w.
Proof.
  intros Hc. destruct (configure_outcome self a w) as [[e' He]|(o & i & Ho)];
    congruence.
Qed.

(** [configure()] never raises. *)
Lemma configure_no_args w :
  configure no_args w =
    (set_manager w module_manager
       (configured no_args (default_snapshot w) (_client_manager w)),
     Returned tt).
Proof. reflexivity. Qed.

(** C1.  Whatever the snapshot and the cache, [configure] called with an
    [api_key] that is not [None] and a [client_options] that carries a
    non-empty API key raises the [ValueError] of line 75, and the world
    it leaves is the world it was called in: [client_config],
    [default_metadata] and the cache of every manager are as before. *)
Theorem configure_conflict self a w key options :
  arg_api_key a = Some key →
  normalise_client_options (arg_client_options a) = Returned options →
  truthy (api_key options) = true →
  ClientManager_configure self a w =
    (w, Raised (ValueError
          "You can't set both `api_key` and `client_options['api_key']`.")).
Proof.
  intros Hkey Hopt Htruthy. unfold ClientManager_configure. unfold_monad.
  by rewrite Hopt, Htruthy, Hkey.
Qed.

(** C5.  [configure] called without [api_key] and with a
    [client_options] that carries no non-empty API key returns; the
    [client_options] of the snapshot it stores has the value of
    [GOOGLE_API_KEY] as its API key: ["Z"] when the variable is set to
    ["Z"], none when the variable is unset. *)
Theorem configure_env_fallback self a w options :
  arg_api_key a = None →
  normalise_client_options (arg_client_options a) = Returned options →
  truthy (api_key options) = false →
  ∃ w', ClientManager_configure self a w = (w', Returned tt)
    ∧ (∀ z, environ w !! "GOOGLE_API_KEY" = Some z →
         dict_get "client_options" (client_config (manager w' self)) =
           Some (VClientOptions
                   {| api_key := Some z;
                      other_options := other_options options |}))
    ∧ (environ w !! "GOOGLE_API_KEY" = None →
         dict_get "client_options" (client_config (manager w' self)) =
           Some (VClientOptions
                   {| api_key := None;
                      other_options := other_options options |})).
Proof.
  intros Hkey Hopt Htruthy. unfold ClientManager_configure. unfold_monad.
  rewrite Hopt, Htruthy, Hkey. eexists. split; [reflexivity|].
  rewrite !manager_set_manager. cbn [client_config with_clients
    with_default_metadata with_client_config].
  split; [intros z Hz|intros Hz]; rewrite Hz;
    by destruct (arg_credentials a), (arg_transport a).
Qed.

(** *** The metadata wrapper *)

Lemma wrap_member_id self c item :
  client_id (wrap_member self c item) = client_id c
  ∧ client_cls (wrap_member self c item) = client_cls c
  ∧ client_kwargs (wrap_member self c item) = client_kwargs c.
Proof. destruct item as [n v]. simpl. by destruct (keep n v). Qed.

Lemma wrap_members_id self l c :
  client_id (foldl (wrap_member self) c l) = client_id c
  ∧ client_cls (foldl (wrap_member self) c l) = client_cls c
  ∧ client_kwargs (foldl (wrap_member self) c l) = client_kwargs c.
Proof.
  revert c. induction l as [|item l IH]; intros c; [done|]. simpl.
  destruct (IH (wrap_member self c item)) as (-> & -> & ->).
  apply wrap_member_id.
Qed.

(** The loop leaves alone every name it does not visit. *)
Lemma wrap_members_other self l c name :
  name ∉ l.*1 →
  client_dict (foldl (wrap_member self) c l) !! name = client_dict c !! name.
Proof.
  revert c. induction l as [|[n v] l IH]; intros c Hnot; [done|].
  rewrite fmap_cons, not_elem_of_cons in Hnot. destruct Hnot as [Hne Hnot].
  simpl foldl. rewrite IH by done. simpl.
  destruct (keep n v); simpl; [|done]. by rewrite lookup_insert_ne.
Qed.

(** The loop wraps a kept member once. *)
Lemma wrap_members_kept self l c name v :
  NoDup l.*1 → (name, v) ∈ l → keep name v = true →
  client_dict (foldl (wrap_member self) c l) !! name =
    Some (CallClosure (getattr c name) self).
Proof.
  revert c. induction l as [|[n v'] l IH]; intros c Hnd Hin Hkeep.
  - by apply elem_of_nil in Hin.
  - rewrite fmap_cons in Hnd. apply NoDup_cons in Hnd as [Hfresh Hnd].
    apply elem_of_cons in Hin as [Heq|Hin].
    + injection Heq as <- <-. simpl foldl.
      rewrite wrap_members_other by done. simpl. rewrite Hkeep. simpl.
      by rewrite lookup_insert_eq.
    + assert (n ≠ name) as Hne.
      { intros ->. apply Hfresh. apply list_elem_of_fmap. by exists (name, v). }
      simpl foldl. rewrite IH by done. f_equal. f_equal.
      unfold getattr. simpl. destruct (keep n v'); simpl; [|done].
      by rewrite lookup_insert_ne.
Qed.

(** The loop installs nothing under a member it does not keep. *)
Lemma wrap_members_dropped self l c name :
  (∀ v, (name, v) ∈ l → keep name v = false) →
  client_dict (foldl (wrap_member self) c l) !! name = client_dict c !! name.
Proof.
  revert c. induction l as [|[n v'] l IH]; intros c Hdrop; [done|].
  simpl foldl. rewrite IH.
  - simpl. destruct (keep n v') eqn:Hk; simpl; [|done].
    rewrite lookup_insert_ne; [done|]. intros ->.
    rewrite Hdrop in Hk; [done|]. apply elem_of_cons. by left.
  - intros v Hv. apply Hdrop. apply elem_of_cons. by right.
Qed.

Lemma getattr_wrapped self c name v :
  client_dict c = ∅ →
  cls_dict (client_cls c) !! name = Some v → keep name v = true →
  getattr (wrapped self c) name =
    CallClosure (BoundMethod (client_id c) name) self.
Proof.
  intros Hnew Hin Hkeep. unfold getattr at 1, wrapped.
  rewrite (wrap_members_kept self _ c name v); try done.
  - unfold getattr. by rewrite Hnew, lookup_empty.
  - apply NoDup_fst_map_to_list.
  - by apply elem_of_map_to_list.
Qed.

Lemma wrapped_id self c :
  client_id (wrapped self c) = client_id c
  ∧ client_cls (wrapped self c) = client_cls c
  ∧ client_kwargs (wrapped self c) = client_kwargs c.
Proof. apply wrap_members_id. Qed.

(** A member the loop does not keep (a reserved name, a classmethod, a
    staticmethod, anything that is not a plain function) stays the member
    of the class. *)
Lemma getattr_wrapped_dropped self c name :
  client_dict c = ∅ →
  (∀ v, cls_dict (client_cls c) !! name = Some v → keep name v = false) →
  getattr (wrapped self c) name = BoundMethod (client_id c) name.
Proof.
  intros Hnew Hdrop. unfold getattr.
  destruct (wrapped_id self c) as (-> & _). unfold wrapped.
  rewrite wrap_members_dropped.
  - by rewrite Hnew, lookup_empty.
  - intros v Hv. apply Hdrop. by apply elem_of_map_to_list.
Qed.

(** *** [make_client] *)

Lemma manager_allocate w self : manager (allocate w) self = manager w self.
Proof. by destruct self. Qed.

Lemma make_client_outcome self name w :
  match glm (client_class_name name) with
  | None =>
      ∃ msg, ClientManager_make_client self name w = (w, Raised (AttributeError msg))
  | Some cls =>
      let w1 := before_construction self w in
      let kwargs := client_config (manager w1 self) in
      match cls_init cls kwargs with
      | Some e => ClientManager_make_client self name w = (w1, Raised e)
      | None =>
          ClientManager_make_client self name w =
            (allocate w1,
             Returned (if nonempty (default_metadata (manager w1 self))
                       then wrapped self (new_client w1 cls kwargs)
                       else new_client w1 cls kwargs))
      end
  end.
Proof.
  unfold ClientManager_make_client, client_class_name, before_construction.
  assert (∀ cname (k : PyClass → M Client),
    bind (getattr_glm cname) k w =
      match glm cname with
      | Some cls => k cls w
      | None =>
          (w, Raised (AttributeError
            ("module 'google.ai.generativelanguage' has no attribute '"
               ++ cname ++ "'")))
      end) as Hbind.
  { intros cname k. unfold getattr_glm, bind. by destruct (glm cname). }
  assert (∀ cls,
    match cls_init cls (client_config (manager (before_construction self w) self)) with
    | Some e =>
        (do current <- read (λ w, client_config (manager w self));
         run (if negb (nonempty current) then configure no_args else ret tt);
         do kwargs <- read (λ w, client_config (manager w self));
         do client <- construct cls kwargs;
         do defaults <- read (λ w, default_metadata (manager w self));
         if negb (nonempty defaults) then ret client
         else ret (foldl (wrap_member self) client (map_to_list (cls_dict cls)))) w
        = (before_construction self w, Raised e)
    | None =>
        (do current <- read (λ w, client_config (manager w self));
         run (if negb (nonempty current) then configure no_args else ret tt);
         do kwargs <- read (λ w, client_config (manager w self));
         do client <- construct cls kwargs;
         do defaults <- read (λ w, default_metadata (manager w self));
         if negb (nonempty defaults) then ret client
         else ret (foldl (wrap_member self) client (map_to_list (cls_dict cls)))) w
        = (allocate (before_construction self w),
           Returned
             (if nonempty (default_metadata (manager (before_construction self w) self))
              then wrapped self
                     (new_client (before_construction self w) cls
                        (client_config (manager (before_construction self w) self)))
              else new_client (before_construction self w) cls
                     (client_config (manager (before_construction self w) self))))
    end) as Hrest.
  { intros cls. unfold before_construction. unfold_monad.
    destruct (nonempty (client_config (manager w self))); cbn [negb].
    - unfold construct.
      destruct (cls_init cls (client_config (manager w self))); [done|].
      rewrite manager_allocate.
      by destruct (nonempty (default_metadata (manager w self))).
    - rewrite configure_no_args. cbn [fst].
      set (w1 := set_manager w module_manager _). unfold construct.
      destruct (cls_init cls (client_config (manager w1 self))); [done|].
      rewrite manager_allocate.
      by destruct (nonempty (default_metadata (manager w1 self))). }
  unfold before_construction in Hrest.
  destruct (PyStr.endswith name "_async"); rewrite Hbind;
    (match goal with |- context [glm ?n] => destruct (glm n) as [cls|] end;
     [apply Hrest|by eexists]).
Qed.

Lemma make_client_returned self name w w1 c :
  ClientManager_make_client self name w = (w1, Returned c) →
  ∃ cls,
    let w0 := before_construction self w in
    let kwargs := client_config (manager w0 self) in
    glm (client_class_name name) = Some cls
    ∧ cls_init cls kwargs = None
    ∧ w1 = allocate w0
    ∧ c = (if nonempty (default_metadata (manager w0 self))
           then wrapped self (new_client w0 cls kwargs)
           else new_client w0 cls kwargs).
Proof.
  intros Hmk. pose proof (make_client_outcome self name w) as Hout.
  destruct (glm (client_class_name name)) as [cls|].
  - exists cls. cbn zeta in *.
    destruct (cls_init cls _); [congruence|].
    rewrite Hmk in Hout. by injection Hout as -> ->.
  - destruct Hout as [msg Hout]. congruence.
Qed.

Lemma make_client_raised self name w w1 e :
  ClientManager_make_client self name w = (w1, Raised e) →
  w1 = w ∨ w1 = before_construction self w.
Proof.
  intros Hmk. pose proof (make_client_outcome self name w) as Hout.
  destruct (glm (client_class_name name)) as [cls|].
  - cbn zeta in *. destruct (cls_init cls _); right; congruence.
  - destruct Hout as [msg Hout]. left. congruence.
Qed.

(** C2.  On a client that [make_client] wrapped (the default metadata
    was not empty when it was made), calling a kept operation [op] of
    the class with arguments [args], [kwargs] and caller metadata [m]
    reaches the original operation of that client with the same
    arguments and with [m] followed by the manager's default metadata:
    caller entries first, defaults after, nothing merged or reordered.
    With defaults [[("d","1")]] and [m = [("c","2")]] the original
    receives [[("c","2"); ("d","1")]]. *)
Theorem wrapped_call_appends_defaults self name w w1 c op v w2 args kwargs m :
  ClientManager_make_client self name w = (w1, Returned c) →
  default_metadata (manager w1 self) ≠ [] →
  cls_dict (client_cls c) !! op = Some v →
  keep op v = true →
  call w2 (getattr c op) args kwargs m =
    {| inv_owner := client_id c; inv_operation := op; inv_args := args;
       inv_kwargs := kwargs;
       inv_metadata := (m ++ default_metadata (manager w2 self))%list |}.
Proof.
  intros Hmk Hmd Hop Hkeep.
  apply make_client_returned in Hmk as (cls & _ & _ & -> & ->).
  rewrite manager_allocate in Hmd. apply nonempty_true in Hmd.
  rewrite Hmd in *.
  destruct (wrapped_id self
    (new_client (before_construction self w) cls
       (client_config (manager (before_construction self w) self))))
    as (Hid & Hcls & _).
  rewrite Hcls in Hop. rewrite Hid.
  by rewrite (getattr_wrapped self _ op v).
Qed.

Lemma before_construction_default_metadata self w :
  default_metadata (manager w self) = [] →
  default_metadata (manager (before_construction self w) self) = [].
Proof.
  intros Hmd. unfold before_construction.
  destruct (nonempty (client_config (manager w self))); [done|].
  rewrite configure_no_args. cbn [fst]. by destruct self.
Qed.

(** C8.  With an empty [default_metadata], [make_client] returns the
    object the constructor returned: no instance attribute is installed,
    and every operation looked up on the client is the operation of the
    class bound to it. *)
Theorem make_client_unwrapped self name w cls :
  default_metadata (manager w self) = [] →
  glm (client_class_name name) = Some cls →
  cls_init cls (client_config (manager (before_construction self w) self)) = None →
  ∃ w1 c,
    ClientManager_make_client self name w = (w1, Returned c)
    ∧ c = new_client (before_construction self w) cls
            (client_config (manager (before_construction self w) self))
    ∧ client_dict c = ∅
    ∧ ∀ op, getattr c op = BoundMethod (client_id c) op.
Proof.
  intros Hmd Hcls Hinit. pose proof (make_client_outcome self name w) as Hout.
  rewrite Hcls in Hout. cbn zeta in Hout. rewrite Hinit in Hout.
  rewrite (before_construction_default_metadata self w Hmd) in Hout.
  cbn [nonempty] in Hout. do 2 eexists. split; [exact Hout|].
  split; [done|]. split; [done|]. intros op. unfold getattr.
  cbn [client_dict new_client]. by rewrite lookup_empty.
Qed.

(** C10.  The defaults a wrapped operation appends are the manager's
    [default_metadata] when the operation is called: once a later
    [configure] has replaced them, a client wrapped earlier appends the
    new ones. *)
Theorem wrapped_call_reads_current_defaults
    self name w w1 c op v a w2 w3 args kwargs m :
  ClientManager_make_client self name w = (w1, Returned c) →
  default_metadata (manager w1 self) ≠ [] →
  cls_dict (client_cls c) !! op = Some v →
  keep op v = true →
  ClientManager_configure self a w2 = (w3, Returned tt) →
  call w3 (getattr c op) args kwargs m =
    {| inv_owner := client_id c; inv_operation := op; inv_args := args;
       inv_kwargs := kwargs;
       inv_metadata := (m ++ arg_default_metadata a)%list |}.
Proof.
  intros Hmk Hmd Hop Hkeep Hcfg.
  apply make_client_returned in Hmk as (cls & _ & _ & -> & ->).
  rewrite manager_allocate in Hmd. apply nonempty_true in Hmd.
  rewrite Hmd in *.
  destruct (wrapped_id self
    (new_client (before_construction self w) cls
       (client_config (manager (before_construction self w) self))))
    as (Hid & Hcls & _).
  rewrite Hcls in Hop. rewrite Hid.
  rewrite (getattr_wrapped self _ op v) by done.
  apply configure_returned in Hcfg as (cfg & _ & ->).
  cbn [call]. by rewrite manager_set_manager.
Qed.

(** *** The cache *)

Lemma store_lookup self key o w :
  clients (manager (store self key o w) self) !! key = Some o.
Proof.
  unfold store. rewrite manager_set_manager. cbn [clients with_clients].
  apply lookup_insert_eq.
Qed.

Lemma store_lookup_ne self key key' o w :
  key ≠ key' →
  clients (manager (store self key o w) self) !! key' =
    clients (manager w self) !! key'.
Proof.
  intros Hne. unfold store. rewrite manager_set_manager.
  cbn [clients with_clients]. by apply lookup_insert_ne.
Qed.

Lemma lookup_or_make_hit self name w o :
  clients (manager w self) !! name = Some o →
  lookup_or_make self name w = (w, Returned o).
Proof. intros Hhit. unfold lookup_or_make. unfold_monad. by rewrite Hhit. Qed.

Lemma lookup_or_make_miss self name w :
  clients (manager w self) !! name = None →
  lookup_or_make self name w =
    match ClientManager_make_client self name w with
    | (w1, Returned c) => (store self name (ServiceClient c) w1,
                           Returned (ServiceClient c))
    | (w1, Raised e) => (w1, Raised e)
    end.
Proof.
  intros Hmiss. unfold lookup_or_make. unfold_monad. rewrite Hmiss.
  by destruct (ClientManager_make_client self name w) as [w1 [c|e]].
Qed.

Lemma lookup_or_make_returned self name w w1 o :
  lookup_or_make self name w = (w1, Returned o) →
  clients (manager w1 self) !! name = Some o.
Proof.
  destruct (clients (manager w self) !! name) as [o'|] eqn:Hc.
  - rewrite (lookup_or_make_hit _ _ _ _ Hc). by intros [= <- <-].
  - rewrite (lookup_or_make_miss _ _ _ Hc).
    destruct (ClientManager_make_client self name w) as [w' [c|e]];
      intros [= <- <-]. apply store_lookup.
Qed.

Lemma operations_hit self w o :
  clients (manager w self) !! "operations" = Some o →
  ClientManager_get_default_operations_client self w = (w, Returned o).
Proof.
  intros Hhit. unfold ClientManager_get_default_operations_client.
  unfold_monad. by rewrite Hhit.
Qed.

Lemma operations_miss self w :
  clients (manager w self) !! "operations" = None →
  ClientManager_get_default_operations_client self w =
    match lookup_or_make self "model" w with
    | (w1, Returned model_client) =>
        (store self "operations" (OperationsClient model_client) w1,
         Returned (OperationsClient model_client))
    | (w1, Raised e) => (w1, Raised e)
    end.
Proof.
  intros Hmiss. unfold ClientManager_get_default_operations_client.
  unfold_monad. rewrite Hmiss. change (PyStr.lower "Model") with "model".
  by destruct (lookup_or_make self "model" w) as [w1 [c|e]].
Qed.

Lemma operations_returned self w w1 o :
  ClientManager_get_default_operations_client self w = (w1, Returned o) →
  clients (manager w1 self) !! "operations" = Some o.
Proof.
  destruct (clients (manager w self) !! "operations") as [o'|] eqn:Hc.
  - rewrite (operations_hit _ _ _ Hc). by intros [= <- <-].
  - rewrite (operations_miss _ _ Hc).
    destruct (lookup_or_make self "model" w) as [w' [c|e]];
      intros [= <- <-]. apply store_lookup.
Qed.

(** The call [self.get_default_client("Model")] inside
    [get_default_operations_client] is the cache path for ["model"]. *)
Lemma get_default_client_Model self :
  ClientManager_get_default_client self "Model" = lookup_or_make self "model".
Proof. reflexivity. Qed.

Lemma get_default_client_returned self n w w1 o :
  ClientManager_get_default_client self n w = (w1, Returned o) →
  clients (manager w1 self) !! PyStr.lower n = Some o.
Proof.
  unfold ClientManager_get_default_client.
  destruct (String.eqb (PyStr.lower n) "operations") eqn:Hop.
  - apply String.eqb_eq in Hop as ->. apply operations_returned.
  - apply lookup_or_make_returned.
Qed.

Lemma get_default_client_hit self n w o :
  clients (manager w self) !! PyStr.lower n = Some o →
  ClientManager_get_default_client self n w = (w, Returned o).
Proof.
  intros Hhit. unfold ClientManager_get_default_client.
  destruct (String.eqb (PyStr.lower n) "operations") eqn:Hop.
  - apply String.eqb_eq in Hop. rewrite Hop in Hhit. by apply operations_hit.
  - by apply lookup_or_make_hit.
Qed.

(** C4.  When [get_default_client(n)] has returned a client, the cache
    holds that client under the lower-cased name, and the same call made
    again returns that very client and leaves the world as it is:
    nothing is constructed, nothing is wrapped. *)
Theorem get_default_client_twice self n w w1 o :
  ClientManager_get_default_client self n w = (w1, Returned o) →
  clients (manager w1 self) !! PyStr.lower n = Some o
  ∧ ClientManager_get_default_client self n w1 = (w1, Returned o).
Proof.
  intros Hfirst. apply get_default_client_returned in Hfirst.
  split; [done|]. by apply get_default_client_hit.
Qed.

Lemma next_id_before_construction self w :
  next_id (before_construction self w) = next_id w.
Proof.
  unfold before_construction.
  destruct (nonempty (client_config (manager w self))); [done|].
  by rewrite configure_no_args.
Qed.

Lemma made_fields self w cls :
  client_id (made self w cls) = next_id w
  ∧ client_cls (made self w cls) = cls
  ∧ client_kwargs (made self w cls) =
      client_config (manager (before_construction self w) self).
Proof.
  unfold made. cbn zeta.
  destruct (nonempty (default_metadata (manager (before_construction self w) self))).
  - destruct (wrapped_id self
      (new_client (before_construction self w) cls
         (client_config (manager (before_construction self w) self))))
      as (-> & -> & ->).
    cbn [new_client client_id client_cls client_kwargs].
    by rewrite next_id_before_construction.
  - cbn [new_client client_id client_cls client_kwargs].
    by rewrite next_id_before_construction.
Qed.

Lemma lookup_or_make_outcome self name w cls :
  clients (manager w self) !! name = None →
  glm (client_class_name name) = Some cls →
  lookup_or_make self name w =
    match cls_init cls (client_config (manager (before_construction self w) self)) with
    | Some e => (before_construction self w, Raised e)
    | None =>
        (store self name (ServiceClient (made self w cls))
           (allocate (before_construction self w)),
         Returned (ServiceClient (made self w cls)))
    end.
Proof.
  intros Hmiss Hcls. rewrite lookup_or_make_miss by done.
  pose proof (make_client_outcome self name w) as Hout.
  rewrite Hcls in Hout. cbn zeta in Hout.
  destruct (cls_init cls _); by rewrite Hout.
Qed.

Lemma service_name_operations n :
  PyStr.lower n = "operations" → service_name n = "model".
Proof. intros Hn. unfold service_name. by rewrite Hn. Qed.

Lemma service_name_other n :
  PyStr.lower n ≠ "operations" → service_name n = PyStr.lower n.
Proof.
  intros Hn. unfold service_name.
  destruct (String.eqb (PyStr.lower n) "operations") eqn:Heq; [|done].
  by apply String.eqb_eq in Heq.
Qed.

(** What a lookup does on a cache miss. *)
Lemma get_default_client_outcome self n w cls :
  clients (manager w self) !! PyStr.lower n = None →
  clients (manager w self) !! service_name n = None →
  glm (client_class_name (service_name n)) = Some cls →
  ClientManager_get_default_client self n w =
    match cls_init cls (client_config (manager (before_construction self w) self)) with
    | Some e => (before_construction self w, Raised e)
    | None =>
        let c := ServiceClient (made self w cls) in
        if String.eqb (PyStr.lower n) "operations"
        then (store self "operations" (OperationsClient c)
                (store self "model" c (allocate (before_construction self w))),
              Returned (OperationsClient c))
        else (store self (PyStr.lower n) c
                (allocate (before_construction self w)),
              Returned c)
    end.
Proof.
  intros Hmiss Hservice Hcls. unfold ClientManager_get_default_client.
  destruct (String.eqb (PyStr.lower n) "operations") eqn:Hop.
  - apply String.eqb_eq in Hop.
    rewrite (service_name_operations n Hop) in *. rewrite Hop in Hmiss.
    rewrite operations_miss by done.
    rewrite (lookup_or_make_outcome self "model" w cls) by done.
    by destruct (cls_init cls _).
  - assert (PyStr.lower n ≠ "operations") as Hne.
    { intros Heq. apply String.eqb_eq in Heq. congruence. }
    rewrite (service_name_other n Hne) in *.
    rewrite (lookup_or_make_outcome self (PyStr.lower n) w cls) by done.
    by destruct (cls_init cls _).
Qed.

Lemma before_construction_configured self w :
  client_config (manager w self) ≠ [] → before_construction self w = w.
Proof.
  intros Hcfg. apply nonempty_true in Hcfg. unfold before_construction.
  by rewrite Hcfg.
Qed.

Lemma before_construction_unconfigured self w :
  client_config (manager w self) = [] →
  before_construction self w =
    set_manager w module_manager
      (configured no_args (default_snapshot w) (_client_manager w)).
Proof.
  intros Hcfg. unfold before_construction. rewrite Hcfg. cbn [nonempty].
  by rewrite configure_no_args.
Qed.

(** On a coherent world, reaching the constructor leaves the content of
    the manager's own cache as it was. *)
Lemma before_construction_clients self w :
  coherent w →
  clients (manager (before_construction self w) self) = clients (manager w self).
Proof.
  intros Hco. destruct (client_config (manager w self)) as [|kv cfg] eqn:Hcfg.
  - rewrite before_construction_unconfigured by done. destruct self.
    + cbn. symmetry. by apply Hco.
    + done.
  - rewrite before_construction_configured; [done|]. by rewrite Hcfg.
Qed.

Lemma string_app_assoc (s1 s2 s3 : string) : (s1 ++ s2) ++ s3 = s1 ++ s2 ++ s3.
Proof.
  induction s1 as [|c s1 IH]; [done|].
  change (String c ((s1 ++ s2) ++ s3) = String c (s1 ++ s2 ++ s3)).
  by rewrite IH.
Qed.

(** The world a returning [configure] leaves, in full. *)
Lemma configure_returned_exact self a w w' :
  ClientManager_configure self a w = (w', Returned tt) →
  ∃ o,
    normalise_client_options (arg_client_options a) = Returned o
    ∧ (truthy (api_key o) = true → arg_api_key a = None)
    ∧ w' = set_manager w self
             (configured a
                (drop_none
                   [ ("credentials", VCredentials <$> arg_credentials a);
                     ("transport", VTransport <$> arg_transport a);
                     ("client_options",
                      Some (VClientOptions
                        (if truthy (api_key o) then o
                         else {| api_key :=
                                   match arg_api_key a with
                                   | None => environ w !! "GOOGLE_API_KEY"
                                   | Some k => Some k
                                   end;
                                 other_options := other_options o |})));
                     ("client_info",
                      Some (VClientInfo
                        {| user_agent :=
                             Some (agent_prefix (arg_client_info a)
                                     ++ USER_AGENT ++ "/" ++ version) |})) ])
                (manager w self)).
Proof.
  unfold ClientManager_configure. unfold_monad.
  destruct (normalise_client_options (arg_client_options a)) as [o|e];
    [|discriminate].
  assert (∀ info : ClientInfo,
    match user_agent info with
    | Some (String c s) =>
        {| user_agent := Some (String c s ++ " " ++ USER_AGENT ++ "/" ++ version) |}
    | _ => {| user_agent := Some (USER_AGENT ++ "/" ++ version) |}
    end =
    {| user_agent :=
         Some (agent_prefix (Some info) ++ USER_AGENT ++ "/" ++ version) |})
    as Hinfo.
  { intros [[[|c s]|]]; try done. unfold agent_prefix. cbn [user_agent].
    do 2 f_equal. symmetry. apply (string_app_assoc (String c s)). }
  intros Hrun. exists o. split; [done|].
  destruct (truthy (api_key o)) eqn:Htruthy.
  - destruct (arg_api_key a) as [k|]; [discriminate|]. split; [done|].
    rewrite !manager_set_manager, !set_manager_twice in Hrun.
    injection Hrun as <-. destruct (arg_client_info a) as [info|].
    + by rewrite Hinfo.
    + done.
  - split; [done|].
    destruct (arg_api_key a) as [k|];
      rewrite !manager_set_manager, !set_manager_twice in Hrun;
      injection Hrun as <-; (destruct (arg_client_info a) as [info|];
        [by rewrite Hinfo|done]).
Qed.

(** C3.  A [configure] that returns leaves the cache without any entry.
    For a name [n] that was cached, the next [get_default_client(n)]
    constructs: when the class is found and its constructor returns, the
    client behind the result has an identity no earlier object has (so
    the result is not the object [A] cached before), it is of that class
    and its keyword arguments are the snapshot built from the arguments of
    that [configure]: the credentials and the transport when given, the
    [client_options] with the resolved API key, the [client_info] with the
    extended user agent.  In particular, after [configure(api_key=k)] the
    client is constructed with the API key [k]. *)
Theorem reconfigure_invalidates self a n w w1 A cls :
  allocated w A →
  clients (manager w self) !! PyStr.lower n = Some A →
  ClientManager_configure self a w = (w1, Returned tt) →
  glm (client_class_name (service_name n)) = Some cls →
  cls_init cls (client_config (manager w1 self)) = None →
  clients (manager w1 self) = ∅
  ∧ ∃ w2 B,
      ClientManager_get_default_client self n w1 = (w2, Returned B)
      ∧ client_id (root_client B) = next_id w1
      ∧ client_id (root_client B) ≠ client_id (root_client A)
      ∧ B ≠ A
      ∧ client_cls (root_client B) = cls
      ∧ client_kwargs (root_client B) = client_config (manager w1 self)
      ∧ ∃ o,
          normalise_client_options (arg_client_options a) = Returned o
          ∧ client_kwargs (root_client B) =
              drop_none
                [ ("credentials", VCredentials <$> arg_credentials a);
                  ("transport", VTransport <$> arg_transport a);
                  ("client_options",
                   Some (VClientOptions
                     (if truthy (api_key o) then o
                      else {| api_key :=
                                match arg_api_key a with
                                | None => environ w !! "GOOGLE_API_KEY"
                                | Some k => Some k
                                end;
                              other_options := other_options o |})));
                  ("client_info",
                   Some (VClientInfo
                     {| user_agent :=
                          Some (agent_prefix (arg_client_info a)
                                  ++ USER_AGENT ++ "/" ++ version) |})) ]
          ∧ ∀ k, arg_api_key a = Some k →
              dict_get "client_options" (client_kwargs (root_client B)) =
                Some (VClientOptions
                        {| api_key := Some k;
                           other_options := other_options o |}).
Proof.
  intros Halloc Hcached Hcfg Hcls Hinit.
  apply configure_returned_exact in Hcfg as (o & Hopt & Hconflict & ->).
  set (cfg := drop_none _) in *.
  set (w1 := set_manager w self (configured a cfg (manager w self))) in *.
  assert (client_config (manager w1 self) = cfg) as Hstored.
  { unfold w1. by rewrite manager_set_manager. }
  assert (clients (manager w1 self) = ∅) as Hempty.
  { unfold w1. by rewrite manager_set_manager. }
  assert (before_construction self w1 = w1) as Hbefore.
  { apply before_construction_configured. rewrite Hstored.
    apply drop_none_snapshot. }
  split; [done|].
  pose proof (get_default_client_outcome self n w1 cls) as Hout.
  rewrite Hempty, !lookup_empty, Hbefore, Hinit in Hout.
  specialize (Hout eq_refl eq_refl Hcls). cbn zeta in Hout.
  destruct (made_fields self w1 cls) as (Hid & Hclass & Hkw).
  rewrite Hbefore in Hkw.
  assert (next_id w1 ≠ client_id (root_client A)) as Hfresh.
  { unfold w1. rewrite next_id_set_manager. unfold allocated in Halloc. lia. }
  assert (∀ k, arg_api_key a = Some k →
            dict_get "client_options" cfg =
              Some (VClientOptions
                      {| api_key := Some k;
                         other_options := other_options o |})) as Hkey.
  { intros k Hk. unfold cfg. rewrite Hk.
    destruct (truthy (api_key o)) eqn:Htruthy.
    - specialize (Hconflict eq_refl). congruence.
    - by destruct (arg_credentials a), (arg_transport a). }
  destruct (String.eqb (PyStr.lower n) "operations");
    do 2 eexists; (split; [exact Hout|]); cbn [root_client];
    rewrite Hid, Hkw, Hstored;
    (split; [done|]); (split; [done|]);
    (split; [intros <-; by cbn in Hfresh|]);
    (split; [done|]); (split; [done|]);
    exists o; by repeat split.
Qed.

(** C6, as the code has it.  On a manager that is not the module-level
    one and has no snapshot, a lookup of an uncached name runs the
    module-level [configure()]: the module-level manager receives the
    default snapshot and loses its cache, the manager that was asked
    still has no snapshot, and the client is constructed without any
    keyword argument. *)
Theorem implicit_configure_goes_to_module_manager n w cls :
  client_config (other_instance w) = [] →
  clients (other_instance w) !! PyStr.lower n = None →
  clients (other_instance w) !! service_name n = None →
  glm (client_class_name (service_name n)) = Some cls →
  cls_init cls [] = None →
  ∃ w' o,
    ClientManager_get_default_client other_manager n w = (w', Returned o)
    ∧ client_kwargs (root_client o) = []
    ∧ client_config (other_instance w') = []
    ∧ client_config (_client_manager w') = default_snapshot w
    ∧ clients (_client_manager w') = ∅.
Proof.
  intros Hcfg Hmiss Hservice Hcls Hinit.
  pose proof (get_default_client_outcome other_manager n w cls) as Hout.
  specialize (Hout Hmiss Hservice Hcls).
  destruct (made_fields other_manager w cls) as (_ & _ & Hkw).
  rewrite before_construction_unconfigured in Hout, Hkw by done.
  cbn [manager set_manager other_instance] in Hout, Hkw.
  rewrite Hcfg in Hout, Hkw. rewrite Hinit in Hout. cbn zeta in Hout.
  destruct (String.eqb (PyStr.lower n) "operations");
    do 2 eexists; (split; [exact Hout|]); cbn [root_client];
    by repeat split.
Qed.

(** The module-level manager does initialise itself. *)
Lemma implicit_configure_on_module_manager n w cls :
  client_config (_client_manager w) = [] →
  clients (_client_manager w) !! PyStr.lower n = None →
  clients (_client_manager w) !! service_name n = None →
  glm (client_class_name (service_name n)) = Some cls →
  cls_init cls (default_snapshot w) = None →
  ∃ w' o,
    ClientManager_get_default_client module_manager n w = (w', Returned o)
    ∧ client_kwargs (root_client o) = default_snapshot w
    ∧ client_config (_client_manager w') = default_snapshot w.
Proof.
  intros Hcfg Hmiss Hservice Hcls Hinit.
  pose proof (get_default_client_outcome module_manager n w cls) as Hout.
  specialize (Hout Hmiss Hservice Hcls).
  destruct (made_fields module_manager w cls) as (_ & _ & Hkw).
  rewrite before_construction_unconfigured in Hout, Hkw by done.
  cbn [manager set_manager _client_manager configured client_config]
    in Hout, Hkw.
  rewrite Hinit in Hout. cbn zeta in Hout.
  destruct (String.eqb (PyStr.lower n) "operations");
    do 2 eexists; (split; [exact Hout|]); cbn [root_client];
    by repeat split.
Qed.

(** C7.  On an empty cache, when the model class is found and its
    constructor returns, [get_default_operations_client()] constructs the
    model client, stores it under ["model"], stores the operations client
    of its transport under ["operations"] and returns it.  An operation
    called on the returned object receives the caller's metadata as
    given, and calling [get_default_operations_client()] again returns
    the same object and changes nothing. *)
Theorem operations_client_from_model self w cls :
  clients (manager w self) = ∅ →
  glm "ModelServiceClient" = Some cls →
  cls_init cls (client_config (manager (before_construction self w) self)) = None →
  ∃ w1 model,
    let operations := OperationsClient (ServiceClient model) in
    ClientManager_get_default_operations_client self w = (w1, Returned operations)
    ∧ client_id model = next_id w
    ∧ next_id w1 = S (next_id w)
    ∧ client_cls model = cls
    ∧ clients (manager w1 self) !! "model" = Some (ServiceClient model)
    ∧ clients (manager w1 self) !! "operations" = Some operations
    ∧ operations = transport_operations_client (ServiceClient model)
    ∧ (∀ w2 op args kwargs m,
         call w2 (getattr_obj operations op) args kwargs m =
           {| inv_owner := client_id model; inv_operation := op;
              inv_args := args; inv_kwargs := kwargs; inv_metadata := m |})
    ∧ ClientManager_get_default_operations_client self w1 = (w1, Returned operations).
Proof.
  intros Hempty Hcls Hinit.
  exists (store self "operations" (OperationsClient (ServiceClient (made self w cls)))
            (store self "model" (ServiceClient (made self w cls))
               (allocate (before_construction self w)))),
         (made self w cls).
  cbn zeta. destruct (made_fields self w cls) as (Hid & Hclass & _).
  assert (ClientManager_get_default_operations_client self w =
    (store self "operations" (OperationsClient (ServiceClient (made self w cls)))
       (store self "model" (ServiceClient (made self w cls))
          (allocate (before_construction self w))),
     Returned (OperationsClient (ServiceClient (made self w cls))))) as Hrun.
  { rewrite operations_miss by (by rewrite Hempty, lookup_empty).
    rewrite (lookup_or_make_outcome self "model" w cls);
      [|by rewrite Hempty, lookup_empty|done].
    by rewrite Hinit. }
  split; [done|]. split; [done|]. split.
  { unfold store. rewrite !next_id_set_manager. cbn.
    by rewrite next_id_before_construction. }
  split; [done|]. split.
  { rewrite store_lookup_ne by done. apply store_lookup. }
  split; [apply store_lookup|]. split; [done|]. split; [done|].
  apply operations_hit, store_lookup.
Qed.

(** C9.  On a coherent world, for a name that is not cached (nor is the
    service it stands for) and whose class is found: when the constructor
    raises, [get_default_client] raises that same exception and the cache
    holds what it held before; when the constructor returns, the client
    is returned and the cache holds it under the lower-cased name. *)
Theorem constructor_failure_leaves_cache self n w cls :
  coherent w →
  clients (manager w self) !! PyStr.lower n = None →
  clients (manager w self) !! service_name n = None →
  glm (client_class_name (service_name n)) = Some cls →
  match cls_init cls (client_config (manager (before_construction self w) self)) with
  | Some e =>
      ∃ w', ClientManager_get_default_client self n w = (w', Raised e)
        ∧ clients (manager w' self) = clients (manager w self)
  | None =>
      ∃ w' o, ClientManager_get_default_client self n w = (w', Returned o)
        ∧ root_client o = made self w cls
        ∧ clients (manager w' self) !! PyStr.lower n = Some o
        ∧ clients (manager w' self) !! service_name n =
            Some (ServiceClient (made self w cls))
  end.
Proof.
  intros Hco Hmiss Hservice Hcls.
  rewrite (get_default_client_outcome self n w cls) by done.
  destruct (cls_init cls _) as [e|].
  - eexists. split; [done|]. by apply before_construction_clients.
  - cbn zeta. unfold service_name.
    destruct (String.eqb (PyStr.lower n) "operations") eqn:Hop.
    + apply String.eqb_eq in Hop. rewrite Hop.
      do 2 eexists. split; [done|]. split; [done|].
      split; [apply store_lookup|].
      rewrite store_lookup_ne by done. apply store_lookup.
    + do 2 eexists. split; [done|]. split; [done|].
      split; apply store_lookup.
Qed.

(** *** Invariants of the reachable worlds *)

Lemma invariant_coherent w : invariant w → coherent w.
Proof. by intros [Hco _]. Qed.

Lemma invariant_cache_allocated w : invariant w → cache_allocated w.
Proof. by intros [_ Hal]. Qed.

Lemma invariant_configure self a w :
  invariant w → invariant (fst (ClientManager_configure self a w)).
Proof.
  intros [Hco Hal].
  destruct (ClientManager_configure self a w) as [w' [[]|e]] eqn:Hcfg; cbn [fst].
  - apply configure_returned in Hcfg as (cfg & Hne & ->). split.
    + destruct self; [done|]. exact Hco.
    + intros r key o. unfold allocated. rewrite next_id_set_manager.
      destruct (decide (self = r)) as [<-|Hr].
      * rewrite manager_set_manager. cbn. by rewrite lookup_empty.
      * rewrite manager_set_manager_ne by done. apply Hal.
  - apply configure_raised in Hcfg as ->. by split.
Qed.

Lemma invariant_before_construction self w :
  invariant w → invariant (before_construction self w).
Proof.
  intros Hinv. unfold before_construction.
  destruct (nonempty (client_config (manager w self))); [done|].
  by apply (invariant_configure module_manager no_args).
Qed.

Lemma invariant_allocate w : invariant w → invariant (allocate w).
Proof.
  intros [Hco Hal]. split; [exact Hco|]. intros r key o.
  rewrite manager_allocate. intros Ho. apply Hal in Ho.
  unfold allocated in *. cbn. lia.
Qed.

Lemma invariant_store self key o w :
  invariant w →
  allocated w o →
  (self = module_manager → client_config (_client_manager w) ≠ []) →
  invariant (store self key o w).
Proof.
  intros [Hco Hal] Ho Hcfg. unfold store. split.
  - destruct self; [|exact Hco]. cbn. intros Hnil. by destruct Hcfg.
  - intros r key' o'. unfold allocated in *. rewrite next_id_set_manager.
    destruct (decide (self = r)) as [<-|Hr].
    + rewrite manager_set_manager. cbn [clients with_clients].
      intros [[_ <-]|[_ Hold]]%lookup_insert_Some; [exact Ho|].
      by apply Hal in Hold.
    + rewrite manager_set_manager_ne by done. apply Hal.
Qed.

Lemma before_construction_module_configured w :
  client_config (_client_manager (before_construction module_manager w)) ≠ [].
Proof.
  destruct (client_config (_client_manager w)) as [|kv cfg] eqn:Hcfg.
  - by rewrite before_construction_unconfigured.
  - rewrite before_construction_configured; cbn [manager]; by rewrite Hcfg.
Qed.

Lemma invariant_make_client self name w :
  invariant w → invariant (fst (ClientManager_make_client self name w)).
Proof.
  intros Hinv. pose proof (make_client_outcome self name w) as Hout.
  destruct (glm (client_class_name name)) as [cls|].
  - cbn zeta in Hout. destruct (cls_init cls _); rewrite Hout; cbn [fst].
    + by apply invariant_before_construction.
    + by apply invariant_allocate, invariant_before_construction.
  - destruct Hout as [msg ->]. done.
Qed.

Lemma invariant_lookup_or_make self name w :
  invariant w → invariant (fst (lookup_or_make self name w)).
Proof.
  intros Hinv. destruct (clients (manager w self) !! name) as [o|] eqn:Hc.
  - by rewrite (lookup_or_make_hit _ _ _ _ Hc).
  - rewrite (lookup_or_make_miss _ _ _ Hc).
    pose proof (invariant_make_client self name w Hinv) as Hmk.
    destruct (ClientManager_make_client self name w) as [w1 [c|e]] eqn:Hrun;
      cbn [fst] in *; [|done].
    apply make_client_returned in Hrun as (cls & _ & _ & Hw1 & Hc').
    apply invariant_store; [done| |].
    + unfold allocated. cbn [root_client]. fold (made self w cls) in Hc'.
      destruct (made_fields self w cls) as (Hid & _ & _).
      rewrite Hc', Hid, Hw1. cbn. rewrite next_id_before_construction. lia.
    + intros ->. rewrite Hw1. cbn. apply before_construction_module_configured.
Qed.

Lemma invariant_get_default_operations_client self w :
  invariant w →
  invariant (fst (ClientManager_get_default_operations_client self w)).
Proof.
  intros Hinv. destruct (clients (manager w self) !! "operations") as [o|] eqn:Hc.
  - by rewrite (operations_hit _ _ _ Hc).
  - rewrite (operations_miss _ _ Hc).
    pose proof (invariant_lookup_or_make self "model" w Hinv) as Hmodel.
    destruct (lookup_or_make self "model" w) as [w1 [o|e]] eqn:Hrun;
      cbn [fst] in *; [|done].
    apply lookup_or_make_returned in Hrun.
    apply invariant_store; [done| |].
    + unfold allocated. cbn [root_client]. destruct Hmodel as [_ Hal].
      by apply Hal in Hrun.
    + intros ->. destruct Hmodel as [Hco _]. intros Hnil.
      cbn [manager] in Hrun. by rewrite (Hco Hnil), lookup_empty in Hrun.
Qed.

Lemma invariant_get_default_client self name w :
  invariant w → invariant (fst (ClientManager_get_default_client self name w)).
Proof.
  intros Hinv. unfold ClientManager_get_default_client.
  destruct (String.eqb (PyStr.lower name) "operations").
  - by apply invariant_get_default_operations_client.
  - by apply invariant_lookup_or_make.
Qed.

Lemma invariant_step w w' : step w w' → invariant w → invariant w'.
Proof.
  intros [self a w0|self name w0|self name w0|self w0] Hinv.
  - by apply invariant_configure.
  - by apply invariant_make_client.
  - by apply invariant_get_default_client.
  - by apply invariant_get_default_operations_client.
Qed.

Lemma invariant_import_module env : invariant (import_module env).
Proof.
  unfold import_module. apply invariant_configure. split; [done|].
  intros [] key o; cbn; by rewrite lookup_empty.
Qed.

(** Every world a process reaches is coherent, and every object its
    caches hold was constructed before. *)
Lemma reachable_invariant env w : reachable env w → invariant w.
Proof.
  induction 1 as [|w w' _ IH Hstep].
  - apply invariant_import_module.
  - by apply (invariant_step w w').
Qed.

End Properties.

(** ** The properties on the sample library *)

Lemma configure_conflict_witness :
  @ClientManager_configure Sample.library module_manager
    (Sample.with_key_and_options "X" "Y") Sample.K1_cached_world =
    (Sample.K1_cached_world,
     Raised (ValueError
       "You can't set both `api_key` and `client_options['api_key']`.")).
Proof.
  apply (@configure_conflict Sample.library module_manager
           (Sample.with_key_and_options "X" "Y") Sample.K1_cached_world
           "X" {| api_key := Some "Y"; other_options := [] |});
    reflexivity.
Defined.

Lemma configure_env_fallback_witness :
  ∃ w', @ClientManager_configure Sample.library module_manager no_args
          Sample.start = (w', Returned tt)
    ∧ (∀ z, environ Sample.start !! "GOOGLE_API_KEY" = Some z →
         dict_get "client_options" (client_config (manager w' module_manager)) =
           Some (VClientOptions {| api_key := Some z; other_options := [] |}))
    ∧ (environ Sample.start !! "GOOGLE_API_KEY" = None →
         dict_get "client_options" (client_config (manager w' module_manager)) =
           Some (VClientOptions {| api_key := None; other_options := [] |})).
Proof.
  apply (@configure_env_fallback Sample.library module_manager no_args
           Sample.start ClientOptions_default);
    reflexivity.
Defined.

Lemma wrapped_call_appends_defaults_witness :
  call Sample.metadata_world
    (getattr Sample.wrapped_generative "generate_content")
    ["request"] [] [("c", "2")] =
    {| inv_owner := 0; inv_operation := "generate_content";
       inv_args := ["request"]; inv_kwargs := [];
       inv_metadata := [("c", "2"); ("d", "1")] |}.
Proof.
  apply (@wrapped_call_appends_defaults Sample.library module_manager
           "generative" Sample.metadata_world (allocate Sample.metadata_world)
           Sample.wrapped_generative "generate_content" PlainFunction
           Sample.metadata_world ["request"] [] [("c", "2")]).
  - vm_compute. reflexivity.
  - vm_compute. discriminate.
  - vm_compute. reflexivity.
  - vm_compute. reflexivity.
Defined.

Lemma reconfigure_invalidates_witness :
  let w1 := fst (@ClientManager_configure Sample.library module_manager
                   (Sample.with_key "K2") Sample.K1_cached_world) in
  clients (manager w1 module_manager) = ∅
  ∧ ∃ w2 B,
      @ClientManager_get_default_client Sample.library module_manager
        "generative" w1 = (w2, Returned B)
      ∧ client_id (root_client B) = next_id w1
      ∧ client_id (root_client B) ≠ client_id (root_client Sample.client_A)
      ∧ B ≠ Sample.client_A
      ∧ client_cls (root_client B) = Sample.generative_class
      ∧ client_kwargs (root_client B) = client_config (manager w1 module_manager)
      ∧ ∃ o,
          @normalise_client_options Sample.library None = Returned o
          ∧ client_kwargs (root_client B) =
              [ ("client_options",
                 VClientOptions
                   (if truthy (api_key o) then o
                    else {| api_key := Some "K2";
                            other_options := other_options o |}));
                ("client_info",
                 VClientInfo {| user_agent := Some "genai-py/0.3.2" |}) ]
          ∧ ∀ k, Some "K2" = Some k →
              dict_get "client_options" (client_kwargs (root_client B)) =
                Some (VClientOptions
                        {| api_key := Some k;
                           other_options := other_options o |}).
Proof.
  apply (@reconfigure_invalidates Sample.library module_manager
           (Sample.with_key "K2") "generative" Sample.K1_cached_world
           (fst (@ClientManager_configure Sample.library module_manager
                   (Sample.with_key "K2") Sample.K1_cached_world))
           Sample.client_A Sample.generative_class).
  - unfold allocated. vm_compute. lia.
  - vm_compute. reflexivity.
  - vm_compute. reflexivity.
  - vm_compute. reflexivity.
  - vm_compute. reflexivity.
Defined.

Lemma get_default_client_twice_witness :
  clients (manager Sample.K1_cached_world module_manager) !! PyStr.lower "Generative"
    = Some Sample.client_A
  ∧ @ClientManager_get_default_client Sample.library module_manager
      "Generative" Sample.K1_cached_world =
      (Sample.K1_cached_world, Returned Sample.client_A).
Proof.
  apply (@get_default_client_twice Sample.library module_manager "Generative"
           Sample.K1_world Sample.K1_cached_world Sample.client_A).
  vm_compute. reflexivity.
Defined.

Lemma implicit_configure_goes_to_module_manager_witness :
  ∃ w' o,
    @ClientManager_get_default_client Sample.library other_manager
      "generative" Sample.K1_cached_world = (w', Returned o)
    ∧ client_kwargs (root_client o) = []
    ∧ client_config (other_instance w') = []
    ∧ client_config (_client_manager w') =
        @default_snapshot Sample.library Sample.K1_cached_world
    ∧ clients (_client_manager w') = ∅.
Proof.
  apply (@implicit_configure_goes_to_module_manager Sample.library
           "generative" Sample.K1_cached_world Sample.generative_class);
    vm_compute; reflexivity.
Defined.

Lemma operations_client_from_model_witness :
  ∃ w1 model,
    let operations := OperationsClient (ServiceClient model) in
    @ClientManager_get_default_operations_client Sample.library other_manager
      Sample.other_metadata_world = (w1, Returned operations)
    ∧ client_id model = next_id Sample.other_metadata_world
    ∧ next_id w1 = S (next_id Sample.other_metadata_world)
    ∧ client_cls model = Sample.model_class
    ∧ clients (manager w1 other_manager) !! "model" = Some (ServiceClient model)
    ∧ clients (manager w1 other_manager) !! "operations" = Some operations
    ∧ operations = transport_operations_client (ServiceClient model)
    ∧ (∀ w2 op args kwargs m,
         call w2 (getattr_obj operations op) args kwargs m =
           {| inv_owner := client_id model; inv_operation := op;
              inv_args := args; inv_kwargs := kwargs; inv_metadata := m |})
    ∧ @ClientManager_get_default_operations_client Sample.library other_manager
        w1 = (w1, Returned operations).
Proof.
  apply (@operations_client_from_model Sample.library other_manager
           Sample.other_metadata_world Sample.model_class);
    vm_compute; reflexivity.
Defined.

Lemma make_client_unwrapped_witness :
  ∃ w1 c,
    @ClientManager_make_client Sample.library module_manager "text"
      Sample.start = (w1, Returned c)
    ∧ c = new_client Sample.start Sample.text_class
            (client_config (_client_manager Sample.start))
    ∧ client_dict c = ∅
    ∧ ∀ op, getattr c op = BoundMethod (client_id c) op.
Proof.
  apply (@make_client_unwrapped Sample.library module_manager "text"
           Sample.start Sample.text_class);
    vm_compute; reflexivity.
Defined.

Lemma constructor_failure_leaves_cache_witness :
  ∃ w',
    @ClientManager_get_default_client Sample.library module_manager
      "generative" Sample.revoked_world =
      (w', Raised (ExternalError "DefaultCredentialsError"))
    ∧ clients (manager w' module_manager) =
        clients (manager Sample.revoked_world module_manager).
Proof.
  apply (@constructor_failure_leaves_cache Sample.library module_manager
           "generative" Sample.revoked_world Sample.generative_class).
  - intros Hnil. vm_compute in Hnil. discriminate Hnil.
  - vm_compute. reflexivity.
  - vm_compute. reflexivity.
  - vm_compute. reflexivity.
Defined.

Lemma wrapped_call_reads_current_defaults_witness :
  call (fst (@ClientManager_configure Sample.library module_manager
               (Sample.with_metadata [("e", "3"); ("f", "4")])
               (allocate Sample.metadata_world)))
    (getattr Sample.wrapped_generative "count_tokens")
    ["request"] [] [("c", "2")] =
    {| inv_owner := 0; inv_operation := "count_tokens";
       inv_args := ["request"]; inv_kwargs := [];
       inv_metadata := [("c", "2"); ("e", "3"); ("f", "4")] |}.
Proof.
  apply (@wrapped_call_reads_current_defaults Sample.library module_manager
           "generative" Sample.metadata_world (allocate Sample.metadata_world)
           Sample.wrapped_generative "count_tokens" PlainFunction
           (Sample.with_metadata [("e", "3"); ("f", "4")])
           (allocate Sample.metadata_world)
           (fst (@ClientManager_configure Sample.library module_manager
                   (Sample.with_metadata [("e", "3"); ("f", "4")])
                   (allocate Sample.metadata_world)))
           ["request"] [] [("c", "2")]).
  - vm_compute. reflexivity.
  - vm_compute. discriminate.
  - vm_compute. reflexivity.
  - vm_compute. reflexivity.
  - vm_compute. reflexivity.
Defined.

(** The end-to-end scenario: [configure(api_key="K1")], a lookup of the
    generative client, [configure(api_key="K2")], the same lookup again. *)
Example reconfigure_scenario :
  let w2 := fst (@ClientManager_configure Sample.library module_manager
                   (Sample.with_key "K2") Sample.K1_cached_world) in
  let B := snd (@get_default_generative_client Sample.library w2) in
  snd (@get_default_generative_client Sample.library Sample.K1_world) =
    Returned Sample.client_A
  ∧ dict_get "client_options" (client_kwargs (root_client Sample.client_A)) =
      Some (VClientOptions {| api_key := Some "K1"; other_options := [] |})
  ∧ B = Returned (ServiceClient
          (new_client w2 Sample.generative_class (client_config (_client_manager w2))))
  ∧ next_id w2 = 1
  ∧ dict_get "client_options" (client_config (_client_manager w2)) =
      Some (VClientOptions {| api_key := Some "K2"; other_options := [] |}).
Proof. vm_compute. repeat split. Qed.

(** With [GOOGLE_API_KEY] unset, importing the module stores no API key. *)
Example import_without_key :
  dict_get "client_options"
    (client_config (_client_manager (@import_module Sample.library Sample.env_unset))) =
    Some (VClientOptions {| api_key := None; other_options := [] |}).
Proof. reflexivity. Qed.

(** A name without a class in the library raises [AttributeError] and
    changes nothing. *)
Example unknown_service :
  @ClientManager_get_default_client Sample.library module_manager "Foo_Bar"
    Sample.start =
    (Sample.start,
     Raised (AttributeError
       "module 'google.ai.generativelanguage' has no attribute 'Foo_BarServiceClient'")).
Proof. vm_compute. reflexivity. Qed.

(** The wrapper leaves reserved names and classmethods alone. *)
Example wrapped_members :
  getattr Sample.wrapped_generative "generate_content" =
    CallClosure (BoundMethod 0 "generate_content") module_manager
  ∧ getattr Sample.wrapped_generative "_validate" = BoundMethod 0 "_validate"
  ∧ getattr Sample.wrapped_generative "from_service_account_file" =
      BoundMethod 0 "from_service_account_file"
  ∧ getattr Sample.wrapped_generative "get_transport_class" =
      BoundMethod 0 "get_transport_class"
  ∧ getattr Sample.wrapped_generative "transport" = BoundMethod 0 "transport".
Proof. vm_compute. repeat split. Qed.

(** ** Further properties of the client manager *)

Section ConfigureProperties.

Context `{Collaborators}.

Implicit Types (w : World) (self : manager_ref) (a : configure_args).

(** X1.  [configure] is all or nothing.  When it raises, nothing has been
    assigned or updated: the world is the one it was called in.  When it
    returns, the manager has a snapshot that is not empty, the default
    metadata it was given and an empty cache; no client is constructed
    (the identity counter stays), the environment is as before, and the
    other manager keeps its default metadata and caches the same objects
    under the same keys.  The snapshot of the other manager is left out of
    the statement: it may hold the very [ClientOptions] or [ClientInfo]
    object this call was given and updates in place. *)
Theorem configure_all_or_nothing self a w :
  match ClientManager_configure self a w with
  | (w', Raised _) => w' = w
  | (w', Returned _) =>
      client_config (manager w' self) ≠ []
      ∧ default_metadata (manager w' self) = arg_default_metadata a
      ∧ clients (manager w' self) = ∅
      ∧ (∀ r, r ≠ self →
           default_metadata (manager w' r) = default_metadata (manager w r)
           ∧ ∀ key,
               (λ o, client_id (root_client o)) <$> clients (manager w' r) !! key =
               (λ o, client_id (root_client o)) <$> clients (manager w r) !! key)
      ∧ environ w' = environ w
      ∧ next_id w' = next_id w
  end.
Proof.
  destruct (ClientManager_configure self a w) as [w' [[]|e]] eqn:Hrun.
  - apply configure_returned in Hrun as (cfg & Hne & ->).
    rewrite manager_set_manager, environ_set_manager, next_id_set_manager.
    repeat split; try done; rewrite manager_set_manager_ne; done.
  - by apply configure_raised in Hrun.
Qed.

(** X2.  [configure] raises in two cases only: [from_dict] raised on the
    [client_options] dict, and then that exception comes out; or both an
    [api_key] argument and a non-empty API key on [client_options] were
    given, and then the [ValueError] of line 75 comes out. *)
Theorem configure_raises_exactly_when self a w e :
  (∃ w', ClientManager_configure self a w = (w', Raised e))
  ↔ normalise_client_options (arg_client_options a) = Raised e
    ∨ (∃ o k,
         normalise_client_options (arg_client_options a) = Returned o
         ∧ truthy (api_key o) = true
         ∧ arg_api_key a = Some k
         ∧ e = ValueError
                 "You can't set both `api_key` and `client_options['api_key']`.").
Proof.
  unfold ClientManager_configure. unfold_monad.
  destruct (normalise_client_options (arg_client_options a)) as [o|e'].
  - destruct (truthy (api_key o)) eqn:Htruthy.
    + destruct (arg_api_key a) as [k|] eqn:Hkey.
      * split.
        -- intros [w' [= _ <-]]. right. by exists o, k.
        -- intros [[=]|(o' & k' & _ & _ & _ & ->)]. by exists w.
      * split.
        -- intros [w' [=]].
        -- intros [[=]|(o' & k' & _ & _ & [=] & _)].
    + split.
      * destruct (arg_api_key a); intros [w' [=]].
      * intros [[=]|(o' & k' & [= <-] & Hcontra & _)]. congruence.
  - split.
    + intros [w' [= _ <-]]. by left.
    + intros [[= ->]|(o' & k' & [=] & _)]. by exists w.
Qed.

(** X3.  The user agent of the stored [client_info] is the caller's user
    agent, a space and [genai-py/<version>] when the caller passed a
    [client_info] with a non-empty user agent, and [genai-py/<version>]
    alone otherwise: an existing agent is extended, never overwritten. *)
Theorem configure_user_agent self a w w' :
  ClientManager_configure self a w = (w', Returned tt) →
  dict_get "client_info" (client_config (manager w' self)) =
    Some (VClientInfo
      {| user_agent :=
           Some (agent_prefix (arg_client_info a)
                   ++ USER_AGENT ++ "/" ++ version) |}).
Proof.
  intros Hrun. apply configure_returned_exact in Hrun as (o & _ & _ & ->).
  rewrite manager_set_manager. cbn [client_config configured].
  by destruct (arg_credentials a), (arg_transport a).
Qed.

(** X4.  The stored snapshot has the keys ["client_options"] and
    ["client_info"] always, ["credentials"] and ["transport"] exactly when
    the argument was given, in that order, and holds the credentials and
    the transport as given. *)
Theorem configure_snapshot_keys self a w w' :
  ClientManager_configure self a w = (w', Returned tt) →
  (client_config (manager w' self)).*1 =
    (match arg_credentials a with Some _ => ["credentials"] | None => [] end
     ++ match arg_transport a with Some _ => ["transport"] | None => [] end
     ++ ["client_options"; "client_info"])%list
  ∧ dict_get "credentials" (client_config (manager w' self)) =
      VCredentials <$> arg_credentials a
  ∧ dict_get "transport" (client_config (manager w' self)) =
      VTransport <$> arg_transport a.
Proof.
  intros Hrun. apply configure_returned_exact in Hrun as (o & _ & _ & ->).
  rewrite manager_set_manager. cbn [client_config configured].
  by destruct (arg_credentials a), (arg_transport a).
Qed.

(** X5.  As the docstring says, [api_key=k] is a shortcut for a
    [client_options] with the API key [k]: for a non-empty [k] and no
    [client_options], the two calls have the same outcome. *)
Theorem api_key_is_a_shortcut self a w k :
  k ≠ EmptyString →
  arg_api_key a = Some k →
  arg_client_options a = None →
  ClientManager_configure self a w =
    ClientManager_configure self
      {| arg_api_key := None;
         arg_credentials := arg_credentials a;
         arg_transport := arg_transport a;
         arg_client_options :=
           Some (OptionsObject {| api_key := Some k; other_options := [] |});
         arg_client_info := arg_client_info a;
         arg_default_metadata := arg_default_metadata a |} w.
Proof.
  intros Hk Hkey Hopt. unfold ClientManager_configure. unfold_monad.
  cbn [arg_api_key arg_credentials arg_transport arg_client_options
       arg_client_info arg_default_metadata].
  rewrite Hkey, Hopt. cbn [normalise_client_options].
  destruct k as [|c k]; [done|]. reflexivity.
Qed.

(** X6.  The environment is a fallback only: when an [api_key] argument
    is given, or [client_options] carries a non-empty API key, the stored
    API key is the given one, whatever [GOOGLE_API_KEY] holds. *)
Theorem given_key_wins_over_environment self a w w' o :
  ClientManager_configure self a w = (w', Returned tt) →
  normalise_client_options (arg_client_options a) = Returned o →
  is_Some (arg_api_key a) ∨ truthy (api_key o) = true →
  dict_get "client_options" (client_config (manager w' self)) =
    Some (VClientOptions
      {| api_key := if truthy (api_key o) then api_key o else arg_api_key a;
         other_options := other_options o |}).
Proof.
  intros Hrun Hopt Hgiven.
  apply configure_returned_exact in Hrun as (o' & Hopt' & Hconflict & ->).
  rewrite Hopt in Hopt'. injection Hopt' as <-.
  rewrite manager_set_manager. cbn [client_config configured].
  assert ((if truthy (api_key o) then o
           else {| api_key :=
                     match arg_api_key a with
                     | None => environ w !! "GOOGLE_API_KEY"
                     | Some k => Some k
                     end;
                   other_options := other_options o |}) =
          {| api_key := if truthy (api_key o) then api_key o else arg_api_key a;
             other_options := other_options o |}) as ->.
  { destruct (truthy (api_key o)) eqn:Htruthy; [by destruct o|].
    destruct Hgiven as [[k Hk]|]; [|done]. by rewrite Hk. }
  by destruct (arg_credentials a), (arg_transport a).
Qed.

End ConfigureProperties.

Section LookupProperties.

Context `{Collaborators}.

Implicit Types (w : World) (self : manager_ref) (a : configure_args).

Lemma before_construction_cases self w :
  before_construction self w = w
  ∨ client_config (manager w self) = []
    ∧ before_construction self w =
        set_manager w module_manager
          (configured no_args (default_snapshot w) (_client_manager w)).
Proof.
  destruct (client_config (manager w self)) as [|kv cfg] eqn:Hcfg.
  - right. split; [done|]. by apply before_construction_unconfigured.
  - left. apply before_construction_configured. by rewrite Hcfg.
Qed.

(** A property of worlds that reaching the constructor, allocating and
    storing keep is kept by every call of the lookup interface. *)
Lemma make_client_preserves (P : World → Prop) self name w :
  P (before_construction self w) →
  (∀ w0, P w0 → P (allocate w0)) →
  P w → P (fst (ClientManager_make_client self name w)).
Proof.
  intros Hbefore Halloc Hw.
  pose proof (make_client_outcome self name w) as Hout.
  destruct (glm (client_class_name name)) as [cls|].
  - cbn zeta in Hout. destruct (cls_init cls _); rewrite Hout; cbn [fst]; auto.
  - destruct Hout as [msg ->]. done.
Qed.

Lemma lookup_or_make_preserves (P : World → Prop) self name w :
  P (before_construction self w) →
  (∀ w0, P w0 → P (allocate w0)) →
  (∀ key o w0, P w0 → P (store self key o w0)) →
  P w → P (fst (lookup_or_make self name w)).
Proof.
  intros Hbefore Halloc Hstore Hw.
  destruct (clients (manager w self) !! name) as [o|] eqn:Hc.
  - by rewrite (lookup_or_make_hit _ _ _ _ Hc).
  - rewrite (lookup_or_make_miss _ _ _ Hc).
    pose proof (make_client_preserves P self name w Hbefore Halloc Hw) as Hmk.
    destruct (ClientManager_make_client self name w) as [w1 [c|e]];
      cbn [fst] in *; auto.
Qed.

Lemma operations_preserves (P : World → Prop) self w :
  P (before_construction self w) →
  (∀ w0, P w0 → P (allocate w0)) →
  (∀ key o w0, P w0 → P (store self key o w0)) →
  P w → P (fst (ClientManager_get_default_operations_client self w)).
Proof.
  intros Hbefore Halloc Hstore Hw.
  destruct (clients (manager w self) !! "operations") as [o|] eqn:Hc.
  - by rewrite (operations_hit _ _ _ Hc).
  - rewrite (operations_miss _ _ Hc).
    pose proof (lookup_or_make_preserves P self "model" w
                  Hbefore Halloc Hstore Hw) as Hmodel.
    destruct (lookup_or_make self "model" w) as [w1 [o|e]];
      cbn [fst] in *; auto.
Qed.

Lemma get_default_client_preserves (P : World → Prop) self n w :
  P (before_construction self w) →
  (∀ w0, P w0 → P (allocate w0)) →
  (∀ key o w0, P w0 → P (store self key o w0)) →
  P w → P (fst (ClientManager_get_default_client self n w)).
Proof.
  intros Hbefore Halloc Hstore Hw. unfold ClientManager_get_default_client.
  destruct (String.eqb (PyStr.lower n) "operations").
  - by apply operations_preserves.
  - by apply lookup_or_make_preserves.
Qed.

(** X7.  A lookup of an uncached name for which the library has no class
    raises [AttributeError] and leaves the world as it is: the class is
    looked up first, so nothing is configured, constructed or cached. *)
Theorem unknown_service_raises self n w :
  clients (manager w self) !! PyStr.lower n = None →
  clients (manager w self) !! service_name n = None →
  glm (client_class_name (service_name n)) = None →
  ∃ msg, ClientManager_get_default_client self n w = (w, Raised (AttributeError msg)).
Proof.
  intros Hmiss Hservice Hcls.
  assert (∃ msg, lookup_or_make self (service_name n) w =
                   (w, Raised (AttributeError msg))) as [msg Hrun].
  { rewrite lookup_or_make_miss by done.
    pose proof (make_client_outcome self (service_name n) w) as Hout.
    rewrite Hcls in Hout. destruct Hout as [msg ->]. by exists msg. }
  exists msg. unfold ClientManager_get_default_client.
  destruct (String.eqb (PyStr.lower n) "operations") eqn:Hop.
  - apply String.eqb_eq in Hop. rewrite Hop in Hmiss.
    rewrite (service_name_operations n Hop) in Hrun.
    rewrite operations_miss by done. by rewrite Hrun.
  - assert (PyStr.lower n ≠ "operations") as Hne.
    { intros Heq. apply String.eqb_eq in Heq. congruence. }
    by rewrite (service_name_other n Hne) in Hrun.
Qed.

Lemma step_module_configured w w' :
  step w w' →
  client_config (_client_manager w) ≠ [] →
  client_config (_client_manager w') ≠ [].
Proof.
  assert (∀ self w0, client_config (_client_manager w0) ≠ [] →
            client_config (_client_manager (before_construction self w0)) ≠ [])
    as Hbefore.
  { intros self w0 Hw0.
    destruct (before_construction_cases self w0) as [->|[_ ->]]; done. }
  assert (∀ self key o w0, client_config (_client_manager w0) ≠ [] →
            client_config (_client_manager (store self key o w0)) ≠ [])
    as Hstore.
  { intros self key o w0 Hw0. by destruct self. }
  intros [self a w0|self name w0|self name w0|self w0] Hw0.
  - destruct (ClientManager_configure self a w0) as [w1 [[]|e]] eqn:Hrun;
      cbn [fst].
    + apply configure_returned in Hrun as (cfg & Hne & ->). by destruct self.
    + by apply configure_raised in Hrun as ->.
  - apply (make_client_preserves
             (λ w1, client_config (_client_manager w1) ≠ [])); auto.
  - apply (get_default_client_preserves
             (λ w1, client_config (_client_manager w1) ≠ [])); auto.
  - apply (operations_preserves
             (λ w1, client_config (_client_manager w1) ≠ [])); auto.
Qed.

(** X8.  Once the module is imported, the module-level manager always
    has a snapshot: in every world a process reaches, its [client_config]
    is not empty, so a lookup on it never runs the [configure()] of line
    117 and constructs from the stored snapshot. *)
Theorem module_manager_always_configured env w :
  reachable env w →
  client_config (_client_manager w) ≠ []
  ∧ before_construction module_manager w = w.
Proof.
  intros Hreach.
  assert (client_config (_client_manager w) ≠ []) as Hcfg.
  { induction Hreach as [|w w' _ IH Hstep].
    - unfold import_module.
      destruct (ClientManager_configure module_manager no_args _)
        as [w1 [[]|e]] eqn:Hrun; cbn [fst].
      + by apply configure_returned in Hrun as (cfg & Hne & ->).
      + unfold ClientManager_configure in Hrun. unfold_monad. discriminate.
    - by apply (step_module_configured w w'). }
  split; [done|]. by apply before_construction_configured.
Qed.

Lemma coherent_before_construction self w :
  coherent w → coherent (before_construction self w).
Proof.
  intros Hco. destruct (before_construction_cases self w) as [->|[_ ->]]; done.
Qed.

Lemma lookup_or_make_keeps self name w key o :
  coherent w →
  clients (manager w self) !! key = Some o →
  clients (manager (fst (lookup_or_make self name w)) self) !! key = Some o.
Proof.
  intros Hco Hkey. destruct (clients (manager w self) !! name) as [o'|] eqn:Hc.
  - by rewrite (lookup_or_make_hit _ _ _ _ Hc).
  - rewrite (lookup_or_make_miss _ _ _ Hc).
    pose proof (make_client_outcome self name w) as Hout.
    destruct (glm (client_class_name name)) as [cls|].
    + cbn zeta in Hout. destruct (cls_init cls _); rewrite Hout; cbn [fst].
      * by rewrite before_construction_clients.
      * rewrite store_lookup_ne by congruence.
        by rewrite manager_allocate, before_construction_clients.
    + destruct Hout as [msg ->]. done.
Qed.

(** X9.  On a coherent world a lookup never evicts: whatever the
    outcome, every entry the manager's cache held before the call is still
    there, with the same object, after it. *)
Theorem lookup_never_evicts self n w key o :
  coherent w →
  clients (manager w self) !! key = Some o →
  clients (manager (fst (ClientManager_get_default_client self n w)) self) !! key
    = Some o.
Proof.
  intros Hco Hkey. unfold ClientManager_get_default_client.
  destruct (String.eqb (PyStr.lower n) "operations").
  - destruct (clients (manager w self) !! "operations") as [o'|] eqn:Hc.
    + by rewrite (operations_hit _ _ _ Hc).
    + rewrite (operations_miss _ _ Hc).
      pose proof (lookup_or_make_keeps self "model" w key o Hco Hkey) as Hkeep.
      destruct (lookup_or_make self "model" w) as [w1 [mc|e]]; cbn [fst] in *;
        [|done].
      rewrite store_lookup_ne by congruence. done.
  - by apply lookup_or_make_keeps.
Qed.

(** X10.  When the model client is cached and the operations client is
    not, [get_default_operations_client] constructs nothing: it returns
    the operations client of the cached model client, stores it under
    ["operations"], and leaves the model entry and the identity counter
    alone. *)
Theorem operations_client_reuses_cached_model self w model_client :
  clients (manager w self) !! "operations" = None →
  clients (manager w self) !! "model" = Some model_client →
  ∃ w',
    ClientManager_get_default_operations_client self w =
      (w', Returned (transport_operations_client model_client))
    ∧ clients (manager w' self) !! "operations" =
        Some (transport_operations_client model_client)
    ∧ clients (manager w' self) !! "model" = Some model_client
    ∧ next_id w' = next_id w.
Proof.
  intros Hops Hmodel. eexists. rewrite operations_miss by done.
  rewrite (lookup_or_make_hit _ _ _ _ Hmodel). split; [done|].
  split; [apply store_lookup|]. split.
  - by rewrite store_lookup_ne.
  - unfold store. by rewrite next_id_set_manager.
Qed.

(** X11.  [make_client] is a factory, not a lookup: on a coherent world
    it leaves the content of the cache as it was, whatever the outcome,
    and a client it returns has an identity no earlier object has. *)
Theorem make_client_does_not_cache self name w w' r :
  coherent w →
  ClientManager_make_client self name w = (w', r) →
  clients (manager w' self) = clients (manager w self)
  ∧ ∀ c, r = Returned c → client_id c = next_id w ∧ next_id w' = S (next_id w).
Proof.
  intros Hco Hrun. pose proof (make_client_outcome self name w) as Hout.
  destruct (glm (client_class_name name)) as [cls|].
  - cbn zeta in Hout. fold (made self w cls) in Hout.
    destruct (cls_init cls _); rewrite Hout in Hrun; injection Hrun as <- <-.
    + split; [by apply before_construction_clients|]. by intros c [=].
    + split.
      * by rewrite manager_allocate, before_construction_clients.
      * intros c [= <-]. destruct (made_fields self w cls) as (-> & _).
        split; [done|]. cbn. by rewrite next_id_before_construction.
  - destruct Hout as [msg Hout]. rewrite Hout in Hrun.
    injection Hrun as <- <-. split; [done|]. by intros c [=].
Qed.

(** X12.  On a wrapped client, a member whose name starts with an
    underscore, or that the class does not bind to a plain function (a
    classmethod, a staticmethod, a property, an inherited member), is not
    wrapped: called with metadata [m], it receives [m] and no default. *)
Theorem wrapper_skips_reserved_and_class_level
    self name w w1 c op w2 args kwargs m :
  ClientManager_make_client self name w = (w1, Returned c) →
  PyStr.startswith op "_" = true
  ∨ cls_dict (client_cls c) !! op ≠ Some PlainFunction →
  call w2 (getattr c op) args kwargs m =
    {| inv_owner := client_id c; inv_operation := op; inv_args := args;
       inv_kwargs := kwargs; inv_metadata := m |}.
Proof.
  intros Hmk Hskip.
  apply make_client_returned in Hmk as (cls & _ & _ & _ & ->). cbn zeta.
  set (c0 := new_client (before_construction self w) cls _) in *.
  destruct (nonempty (default_metadata (manager (before_construction self w) self))).
  - destruct (wrapped_id self c0) as (Hid & Hcls & _).
    rewrite Hcls in Hskip. rewrite Hid.
    rewrite getattr_wrapped_dropped; [done|done|].
    intros v Hv. unfold keep. destruct Hskip as [->|Hne]; [done|].
    destruct (PyStr.startswith op "_"); [done|].
    destruct v; try done.
  - unfold getattr. cbn. by rewrite lookup_empty.
Qed.

(** X13.  The two managers are isolated, up to the [configure()] of line
    117: a lookup on the module-level manager never changes another
    instance, and a lookup on an instance that has a snapshot never
    changes the module-level manager. *)
Theorem lookups_are_isolated n w :
  other_instance (fst (ClientManager_get_default_client module_manager n w))
    = other_instance w
  ∧ (client_config (other_instance w) ≠ [] →
     _client_manager (fst (ClientManager_get_default_client other_manager n w))
       = _client_manager w).
Proof.
  split.
  - apply (get_default_client_preserves
             (λ w', other_instance w' = other_instance w)); try done.
    by destruct (before_construction_cases module_manager w) as [->|[_ ->]].
  - intros Hcfg.
    apply (get_default_client_preserves
             (λ w', _client_manager w' = _client_manager w)); try done.
    by rewrite before_construction_configured.
Qed.

(** X14.  Service names are case-insensitive: once a lookup of [n1] has
    returned a client, a lookup of any name with the same lower-casing
    returns that very client and changes nothing. *)
Theorem names_are_case_insensitive self n1 n2 w w1 o :
  PyStr.lower n1 = PyStr.lower n2 →
  ClientManager_get_default_client self n1 w = (w1, Returned o) →
  ClientManager_get_default_client self n2 w1 = (w1, Returned o).
Proof.
  intros Hsame Hfirst. apply get_default_client_returned in Hfirst.
  rewrite Hsame in Hfirst. by apply get_default_client_hit.
Qed.

Lemma split_underscore_0_prefix s r :
  no_underscore s → PyStr.split_underscore_0 (s ++ "_" ++ r) = s.
Proof.
  unfold no_underscore. induction s as [|c s IH]; intros Hs; [done|].
  cbn [list_ascii_of_string] in Hs. apply Forall_cons in Hs as [Hc Hs].
  change (String c s ++ "_" ++ r) with (String c (s ++ "_" ++ r)).
  cbn [PyStr.split_underscore_0].
  destruct (Ascii.eqb c "_") eqn:Heq.
  - by apply Ascii.eqb_eq in Heq.
  - by rewrite IH.
Qed.

(** X15.  For a name that ends in [_async], the class [make_client]
    constructs is named after the text before the first underscore, in
    title case, followed by [ServiceAsyncClient]; whatever stands between
    that first underscore and the suffix plays no part. *)
Theorem async_names_use_the_first_word self s r w w' c :
  no_underscore s →
  PyStr.endswith (s ++ "_" ++ r) "_async" = true →
  ClientManager_make_client self (s ++ "_" ++ r) w = (w', Returned c) →
  glm (PyStr.title s ++ "ServiceAsyncClient") = Some (client_cls c).
Proof.
  intros Hs Hasync Hmk.
  apply make_client_returned in Hmk as (cls & Hcls & _ & _ & ->). cbn zeta.
  unfold client_class_name in Hcls.
  rewrite Hasync, split_underscore_0_prefix in Hcls by done. rewrite Hcls.
  f_equal. fold (made self w cls). by destruct (made_fields self w cls) as (_ & -> & _).
Qed.

(** X16.  A client constructed by a lookup is a new object: when neither
    the name nor its service is cached and the lookup returns, the client
    behind the result has an identity above that of every object cached in
    either manager. *)
Theorem constructed_client_is_new self n w w' o cls :
  cache_allocated w →
  clients (manager w self) !! PyStr.lower n = None →
  clients (manager w self) !! service_name n = None →
  glm (client_class_name (service_name n)) = Some cls →
  ClientManager_get_default_client self n w = (w', Returned o) →
  ∀ r key o', clients (manager w r) !! key = Some o' →
    client_id (root_client o') < client_id (root_client o).
Proof.
  intros Hal Hmiss Hservice Hcls Hrun r key o' Hcached.
  rewrite (get_default_client_outcome self n w cls) in Hrun by done.
  apply Hal in Hcached. unfold allocated in Hcached.
  destruct (made_fields self w cls) as (Hid & _ & _).
  destruct (cls_init cls _); [discriminate|]. cbn zeta in Hrun.
  destruct (String.eqb (PyStr.lower n) "operations");
    injection Hrun as <- <-; cbn [root_client]; lia.
Qed.

Lemma lookup_or_make_next_id self name w :
  next_id (fst (lookup_or_make self name w)) = next_id w
  ∨ next_id (fst (lookup_or_make self name w)) = S (next_id w).
Proof.
  destruct (clients (manager w self) !! name) as [o'|] eqn:Hc.
  - rewrite (lookup_or_make_hit _ _ _ _ Hc). by left.
  - rewrite (lookup_or_make_miss _ _ _ Hc).
    pose proof (make_client_outcome self name w) as Hout.
    destruct (glm (client_class_name name)) as [cls|].
    + cbn zeta in Hout. destruct (cls_init cls _); rewrite Hout; cbn [fst].
      * left. apply next_id_before_construction.
      * right. unfold store. rewrite next_id_set_manager. cbn.
        by rewrite next_id_before_construction.
    + destruct Hout as [msg ->]. by left.
Qed.

(** X17.  A lookup constructs at most one client: the identity counter
    stays where it was or moves by one, whatever the name and the
    outcome, also on the operations path. *)
Theorem lookup_constructs_at_most_one self n w :
  next_id (fst (ClientManager_get_default_client self n w)) = next_id w
  ∨ next_id (fst (ClientManager_get_default_client self n w)) = S (next_id w).
Proof.
  unfold ClientManager_get_default_client.
  destruct (String.eqb (PyStr.lower n) "operations").
  - destruct (clients (manager w self) !! "operations") as [o'|] eqn:Hc.
    + rewrite (operations_hit _ _ _ Hc). by left.
    + rewrite (operations_miss _ _ Hc).
      pose proof (lookup_or_make_next_id self "model" w) as Hmodel.
      destruct (lookup_or_make self "model" w) as [w1 [mc|e]]; cbn [fst] in *;
        [|done].
      unfold store. by rewrite next_id_set_manager.
  - apply lookup_or_make_next_id.
Qed.

End LookupProperties.

(** ** Properties of the converters and of the batching *)

Lemma getitem_elem_of {K V} `{EqDecision K} (d : list (K * V)) k v :
  getitem d k = Some v → (k, v) ∈ d.
Proof.
  induction d as [|[k' v'] d IH]; [done|]. cbn [getitem].
  destruct (getitem d k) as [v0|].
  - intros [= ->]. apply elem_of_cons. right. by apply IH.
  - destruct (decide (k' = k)) as [->|]; [|done].
    intros [= ->]. apply elem_of_cons. by left.
Qed.

Section Batching.

Context {T : Type}.

Implicit Types (batch iterable : list T) (n : Z).

Lemma batched_loop_concat n batch iterable :
  List.concat (Embedding.batched_loop n batch iterable) = (batch ++ iterable)%list.
Proof.
  revert batch. induction iterable as [|item rest IH]; intros batch.
  - cbn [Embedding.batched_loop]. destruct batch; cbn; [done|].
    by rewrite !app_nil_r.
  - cbn [Embedding.batched_loop]. cbn zeta.
    destruct (Z.of_nat (List.length (batch ++ [item])) =? n)%Z.
    + cbn [List.concat]. rewrite IH. cbn [app]. by rewrite <- app_assoc.
    + rewrite IH. by rewrite <- app_assoc.
Qed.

Lemma batched_loop_sizes n batch iterable :
  (Z.of_nat (List.length batch) < n)%Z →
  Forall (λ b, (0 < Z.of_nat (List.length b) ≤ n)%Z)
    (Embedding.batched_loop n batch iterable).
Proof.
  revert batch. induction iterable as [|item rest IH]; intros batch Hlt.
  - cbn [Embedding.batched_loop]. destruct batch as [|x batch]; cbn [nonempty].
    + constructor.
    + constructor; [|constructor]. cbn [List.length] in *. lia.
  - cbn [Embedding.batched_loop]. cbn zeta.
    destruct (Z.of_nat (List.length (batch ++ [item])) =? n)%Z eqn:Hfull.
    + apply Z.eqb_eq in Hfull. constructor.
      * rewrite length_app in *. cbn [List.length] in *. lia.
      * apply IH. cbn [List.length]. rewrite length_app in Hfull.
        cbn [List.length] in Hfull. lia.
    + apply Z.eqb_neq in Hfull. apply IH.
      rewrite length_app in *. cbn [List.length] in *. lia.
Qed.

Lemma batched_loop_full n batch iterable i b :
  Embedding.batched_loop n batch iterable !! i = Some b →
  S i < List.length (Embedding.batched_loop n batch iterable) →
  Z.of_nat (List.length b) = n.
Proof.
  revert batch i. induction iterable as [|item rest IH]; intros batch i.
  - cbn [Embedding.batched_loop]. destruct (nonempty batch); cbn [List.length]; lia.
  - cbn [Embedding.batched_loop]. cbn zeta.
    destruct (Z.of_nat (List.length (batch ++ [item])) =? n)%Z eqn:Hfull.
    + apply Z.eqb_eq in Hfull. destruct i as [|i]; cbn [List.length].
      * by intros [= <-] _.
      * intros Hb Hlen. apply (IH [] i); [done|lia].
    + apply IH.
Qed.

Lemma batched_loop_count n batch iterable :
  (1 ≤ n)%Z →
  (Z.of_nat (List.length batch) < n)%Z →
  Z.of_nat (List.length (Embedding.batched_loop n batch iterable)) =
    ((Z.of_nat (List.length batch + List.length iterable) + n - 1) / n)%Z.
Proof.
  intros Hn. revert batch. induction iterable as [|item rest IH]; intros batch Hlt.
  - cbn [Embedding.batched_loop]. destruct batch as [|x batch]; cbn [nonempty].
    + cbn [List.length]. symmetry. apply Z.div_small. lia.
    + cbn [List.length] in *. change (Z.of_nat 1) with 1%Z.
      apply (Z.div_unique _ _ 1 (Z.of_nat (List.length batch))); lia.
  - cbn [Embedding.batched_loop]. cbn zeta.
    destruct (Z.of_nat (List.length (batch ++ [item])) =? n)%Z eqn:Hfull.
    + apply Z.eqb_eq in Hfull. rewrite length_app in Hfull.
      cbn [List.length] in *. rewrite Nat2Z.inj_succ, IH by (cbn; lia).
      cbn [List.length].
      replace (Z.of_nat (List.length batch + S (List.length rest)) + n - 1)%Z
        with (1 * n + (Z.of_nat (0 + List.length rest) + n - 1))%Z by lia.
      rewrite Z.div_add_l by lia. lia.
    + apply Z.eqb_neq in Hfull. rewrite length_app in Hfull.
      cbn [List.length] in *. rewrite IH.
      * f_equal. rewrite length_app. cbn [List.length]. lia.
      * rewrite length_app. cbn [List.length]. lia.
Qed.

(** X18.  [_batched] raises exactly when [n < 1]; otherwise the batches
    it yields, put end to end, are the items of the iterable in their
    order: nothing is dropped, repeated or moved. *)
Theorem batched_keeps_every_item iterable n :
  match Embedding._batched iterable n with
  | inl e =>
      (n < 1)%Z
      ∧ e = Embedding.ValueError
              ("Batch size `n` must be >0, got: " ++ str_of_int n)
  | inr batches => (1 ≤ n)%Z ∧ List.concat batches = iterable
  end.
Proof.
  unfold Embedding._batched. destruct (n <? 1)%Z eqn:Hn.
  - apply Z.ltb_lt in Hn. by split.
  - apply Z.ltb_ge in Hn. split; [done|]. apply batched_loop_concat.
Qed.

(** X19.  No batch is empty, no batch has more than [n] items, and every
    batch but the last has exactly [n]. *)
Theorem batched_sizes iterable n batches :
  Embedding._batched iterable n = inr batches →
  Forall (λ b, (0 < Z.of_nat (List.length b) ≤ n)%Z) batches
  ∧ ∀ i b, batches !! i = Some b → S i < List.length batches →
      Z.of_nat (List.length b) = n.
Proof.
  unfold Embedding._batched. destruct (n <? 1)%Z eqn:Hn; [done|].
  apply Z.ltb_ge in Hn. intros [= <-]. split.
  - apply batched_loop_sizes. cbn. lia.
  - intros i b. apply batched_loop_full.
Qed.

(** X20.  The number of batches is the number of items divided by [n],
    rounded up; an empty iterable yields no batch. *)
Theorem batched_count iterable n batches :
  Embedding._batched iterable n = inr batches →
  Z.of_nat (List.length batches) =
    ((Z.of_nat (List.length iterable) + n - 1) / n)%Z
  ∧ (iterable = [] → batches = []).
Proof.
  unfold Embedding._batched. destruct (n <? 1)%Z eqn:Hn; [done|].
  apply Z.ltb_ge in Hn. intros [= <-]. split.
  - rewrite batched_loop_count by (cbn; lia). done.
  - by intros ->.
Qed.

End Batching.

Section Converters.

Import Embedding.

(** X21.  [to_task_type] normalises: every member of the enum is mapped
    to itself, so converting a converted value changes nothing. *)
Theorem to_task_type_fixes_members :
  (∀ t, to_task_type (OfMember t) = inr t)
  ∧ (∀ x t, to_task_type x = inr t → to_task_type (OfMember t) = to_task_type x).
Proof.
  assert (∀ t, to_task_type (OfMember t) = inr t) as Hfix by (by intros []).
  split; [done|]. intros x t ->. apply Hfix.
Qed.

(** X22.  The ints [to_task_type] accepts are 0 to 5; any other int is a
    [KeyError]. *)
Theorem to_task_type_ints z :
  (∃ t, to_task_type (OfInt z) = inr t) ↔ (0 ≤ z ≤ 5)%Z.
Proof.
  split.
  - intros [t Ht]. unfold to_task_type in Ht. cbn [lower_if_str] in Ht.
    destruct (getitem _EMBEDDING_TASK_TYPE (OfInt z)) as [t'|] eqn:Hget;
      [|done].
    apply getitem_elem_of in Hget. unfold _EMBEDDING_TASK_TYPE in Hget.
    repeat (apply elem_of_cons in Hget as [Hget|Hget];
            [try discriminate Hget; injection Hget as Hz _; lia|]).
    by apply elem_of_nil in Hget.
  - intros Hz.
    assert (z = 0 ∨ z = 1 ∨ z = 2 ∨ z = 3 ∨ z = 4 ∨ z = 5)%Z
      as [->|[->|[->|[->|[->| ->]]]]] by lia; by eexists.
Qed.

End Converters.

Section Safety.

Import SafetyTypes.

Lemma getitem_elem_of_keys {K V} `{EqDecision K} (d : list (K * V)) k v :
  getitem d k = Some v → k ∈ d.*1.
Proof.
  intros Hget. apply getitem_elem_of in Hget.
  apply list_elem_of_fmap. by exists (k, v).
Qed.

Lemma to_old_harm_category_range x c :
  to_old_harm_category x = inr c → c ∈ old_categories.
Proof.
  unfold to_old_harm_category. cbn zeta.
  destruct (getitem _OLD_HARM_CATEGORIES (lower_if_str x)) as [c'|] eqn:Hget;
    [|done].
  intros [= <-]. apply getitem_elem_of in Hget.
  unfold _OLD_HARM_CATEGORIES in Hget. unfold old_categories.
  generalize dependent (lower_if_str x). intros k Hget.
  repeat (apply elem_of_cons in Hget as [Hget|Hget];
          [injection Hget as _ ->;
           repeat (apply elem_of_cons; first [by left|right])|]).
  by apply elem_of_nil in Hget.
Qed.

Lemma to_new_harm_category_range x c :
  to_new_harm_category x = inr c → c ∈ new_categories.
Proof.
  unfold to_new_harm_category. cbn zeta.
  destruct (getitem _NEW_HARM_CATEGORIES (lower_if_str x)) as [c'|] eqn:Hget;
    [|done].
  intros [= <-]. apply getitem_elem_of in Hget.
  unfold _NEW_HARM_CATEGORIES in Hget. unfold new_categories.
  generalize dependent (lower_if_str x). intros k Hget.
  repeat (apply elem_of_cons in Hget as [Hget|Hget];
          [injection Hget as _ ->;
           repeat (apply elem_of_cons; first [by left|right])|]).
  by apply elem_of_nil in Hget.
Qed.

(** X23.  The two category sets do not meet: [to_old_harm_category] only
    returns the seven old categories, [to_new_harm_category] only the four
    new ones, and no category is in both lists.  A key both sets know
    (such as ["sexual"] or ["danger"]) is therefore resolved differently
    by the two. *)
Theorem old_and_new_categories_are_disjoint :
  (∀ x c, to_old_harm_category x = inr c → c ∈ old_categories)
  ∧ (∀ x c, to_new_harm_category x = inr c → c ∈ new_categories)
  ∧ (∀ c, c ∈ old_categories → c ∈ new_categories → False).
Proof.
  split; [apply to_old_harm_category_range|].
  split; [apply to_new_harm_category_range|].
  intros c Hold Hnew. unfold old_categories, new_categories in *.
  repeat (apply elem_of_cons in Hold as [->|Hold];
          [repeat (apply elem_of_cons in Hnew as [Hnew|Hnew];
                   [discriminate Hnew|]);
           by apply elem_of_nil in Hnew|]).
  by apply elem_of_nil in Hold.
Qed.

(** X24.  The safety converters normalise: within a set, a category that
    [to_harm_category] returned is mapped to itself, and
    [to_block_threshold] maps every threshold to itself. *)
Theorem safety_converters_fix_members :
  (∀ x c set, to_harm_category x set = inr c →
     to_harm_category (OfMember c) set = inr c)
  ∧ (∀ t, to_block_threshold (OfMember t) = inr t).
Proof.
  split.
  - intros x c set. unfold to_harm_category.
    destruct (String.eqb set "old").
    + intros Hc%to_old_harm_category_range. unfold old_categories in Hc.
      repeat (apply elem_of_cons in Hc as [->|Hc]; [done|]).
      by apply elem_of_nil in Hc.
    + destruct (String.eqb set "new"); [|done].
      intros Hc%to_new_harm_category_range. unfold new_categories in Hc.
      repeat (apply elem_of_cons in Hc as [->|Hc]; [done|]).
      by apply elem_of_nil in Hc.
  - by intros [].
Qed.

(** X25.  The name of the category set is checked when the first entry is
    converted, not before: with a name that is neither ["old"] nor
    ["new"], [None] and empty settings are accepted as they are, and a
    mapping with at least one item raises the [ValueError]. *)
Theorem category_set_is_checked_per_entry set :
  set ≠ "old" → set ≠ "new" →
  normalize_safety_settings NoSettings set = inr None
  ∧ normalize_safety_settings (EasySafetySetting []) set = inr (Some [])
  ∧ normalize_safety_settings (LooseSettings []) set = inr (Some [])
  ∧ to_easy_safety_dict (EasySafetySetting []) set = inr []
  ∧ ∀ item items,
      normalize_safety_settings (EasySafetySetting (item :: items)) set =
        inl (ValueError "harm_category_set must be 'new' or 'old'")
      ∧ to_easy_safety_dict (EasySafetySetting (item :: items)) set =
          inl (ValueError "harm_category_set must be 'new' or 'old'").
Proof.
  intros Hold Hnew. repeat split; try done.
  - unfold normalize_safety_settings. cbn. unfold to_harm_category.
    apply String.eqb_neq in Hold, Hnew. by rewrite Hold, Hnew.
  - unfold to_easy_safety_dict. cbn. unfold to_harm_category.
    apply String.eqb_neq in Hold, Hnew. by rewrite Hold, Hnew.
Qed.

Lemma dict_comprehension_list_comprehension set acc l :
  dict_comprehension set acc l =
    match list_comprehension set l with
    | inl e => inl e
    | inr r => inr (foldl (λ d x, setitem d (category x) (threshold x)) acc r)
    end.
Proof.
  revert acc. induction l as [|[key value] l IH]; intros acc; [done|].
  cbn [dict_comprehension list_comprehension].
  destruct (convert_pair set key value) as [e|[c t]]; [done|].
  rewrite IH. by destruct (list_comprehension set l).
Qed.

(** X26.  [to_easy_safety_dict] is [normalize_safety_settings] followed
    by writing the settings into a dict one after the other: the two
    raise the same exception on the same input, [None] gives the empty
    dict, and a normalised list gives its collapse. *)
Theorem easy_dict_is_collapsed_normal_form settings set :
  to_easy_safety_dict settings set =
    match normalize_safety_settings settings set with
    | inl e => inl e
    | inr None => inr []
    | inr (Some l) => inr (collapse l)
    end.
Proof.
  unfold to_easy_safety_dict, normalize_safety_settings, collapse.
  destruct settings as [|items|dicts]; [done| |];
    rewrite dict_comprehension_list_comprehension;
    by destruct (list_comprehension set _).
Qed.

Lemma setitem_keys {K V} `{EqDecision K} (d : list (K * V)) k v :
  (setitem d k v).*1 = if decide (k ∈ d.*1) then d.*1 else (d.*1 ++ [k])%list.
Proof.
  induction d as [|[k' v'] d IH]; [done|]. cbn [setitem].
  destruct (decide (k' = k)) as [->|Hne].
  - rewrite decide_True; [done|]. rewrite fmap_cons. apply elem_of_cons. by left.
  - rewrite !fmap_cons, IH. cbn [fst]. destruct (decide (k ∈ d.*1)) as [Hin|Hnot].
    + rewrite decide_True; [done|]. apply elem_of_cons. by right.
    + rewrite decide_False; [done|]. intros [->|Hin]%elem_of_cons; done.
Qed.

Lemma setitem_NoDup {K V} `{EqDecision K} (d : list (K * V)) k v :
  NoDup d.*1 → NoDup (setitem d k v).*1.
Proof.
  intros Hnd. rewrite setitem_keys. destruct (decide (k ∈ d.*1)); [done|].
  apply NoDup_app. split; [done|]. split.
  - intros x Hx [->|Hnil%elem_of_nil]%elem_of_cons; done.
  - apply NoDup_singleton.
Qed.

Lemma getitem_setitem {K V} `{EqDecision K} (d : list (K * V)) k v c :
  NoDup d.*1 →
  getitem (setitem d k v) c = if decide (k = c) then Some v else getitem d c.
Proof.
  induction d as [|[k' v'] d IH]; intros Hnd; [done|].
  rewrite fmap_cons in Hnd. apply NoDup_cons in Hnd as [Hfresh Hnd].
  cbn [setitem]. destruct (decide (k' = k)) as [->|Hne].
  - cbn [getitem]. destruct (decide (k = c)) as [->|Hkc].
    + destruct (getitem d c) as [v0|] eqn:Hget; [|done].
      apply getitem_elem_of_keys in Hget. done.
    + done.
  - cbn [getitem]. rewrite IH by done.
    destruct (decide (k = c)) as [->|Hkc]; [done|]. done.
Qed.

Lemma getitem_foldl_setitem (l : list SafetySettingDict) acc c :
  NoDup acc.*1 →
  NoDup (foldl (λ d x, setitem d (category x) (threshold x)) acc l).*1
  ∧ getitem (foldl (λ d x, setitem d (category x) (threshold x)) acc l) c =
      match getitem (setting_pairs l) c with
      | Some t => Some t
      | None => getitem acc c
      end.
Proof.
  revert acc. induction l as [|x l IH]; intros acc Hnd; [done|].
  cbn [foldl]. destruct (IH (setitem acc (category x) (threshold x)))
    as [Hnd' ->]; [by apply setitem_NoDup|].
  split; [done|]. unfold setting_pairs. rewrite fmap_cons. cbn [getitem].
  fold (setting_pairs l). destruct (getitem (setting_pairs l) c); [done|].
  rewrite getitem_setitem by done. by destruct (decide (category x = c)).
Qed.

(** X27.  The dict [to_easy_safety_dict] returns has each category once,
    and holds for a category the threshold of the last setting given for
    it: a later setting overrides an earlier one. *)
Theorem easy_dict_last_setting_wins settings set d :
  to_easy_safety_dict settings set = inr d →
  NoDup d.*1
  ∧ ∀ l, normalize_safety_settings settings set = inr (Some l) →
      ∀ c, getitem d c = getitem (setting_pairs l) c.
Proof.
  assert (∀ es,
    dict_comprehension set [] es = inr d →
    NoDup d.*1
    ∧ ∀ l, match list_comprehension set es with
           | inl e => inl e
           | inr l0 => inr (Some l0)
           end = inr (Some l) →
        ∀ c, getitem d c = getitem (setting_pairs l) c) as Hentries.
  { intros es. rewrite dict_comprehension_list_comprehension.
    destruct (list_comprehension set es) as [e|l0]; [done|].
    intros [= <-]. split.
    - by destruct (getitem_foldl_setitem l0 [] HARM_CATEGORY_UNSPECIFIED
                     NoDup_nil_2) as [Hnd _].
    - intros l [= <-] c.
      destruct (getitem_foldl_setitem l0 [] c NoDup_nil_2) as [_ ->].
      by destruct (getitem (setting_pairs l0) c). }
  unfold to_easy_safety_dict, normalize_safety_settings.
  destruct settings as [|items|dicts]; [|apply Hentries..].
  intros [= <-]. split; [apply NoDup_nil_2|]. intros l [=].
Qed.

End Safety.

(** ** The further properties on the sample inputs *)

Lemma configure_user_agent_witness :
  dict_get "client_info"
    (client_config
       (manager
          (fst (@ClientManager_configure Sample.library module_manager
                  (Scenario.with_client_info "my-app/1.0") Sample.start))
          module_manager)) =
    Some (VClientInfo {| user_agent := Some "my-app/1.0 genai-py/0.3.2" |}).
Proof.
  apply (@configure_user_agent Sample.library module_manager
           (Scenario.with_client_info "my-app/1.0") Sample.start).
  vm_compute. reflexivity.
Defined.

Lemma configure_snapshot_keys_witness :
  let w' := fst (@ClientManager_configure Sample.library module_manager
                   Scenario.with_credentials_and_transport Sample.start) in
  (client_config (manager w' module_manager)).*1 =
    ["credentials"; "transport"; "client_options"; "client_info"]
  ∧ dict_get "credentials" (client_config (manager w' module_manager)) =
      Some (VCredentials "token")
  ∧ dict_get "transport" (client_config (manager w' module_manager)) =
      Some (VTransport "rest").
Proof.
  apply (@configure_snapshot_keys Sample.library module_manager
           Scenario.with_credentials_and_transport Sample.start).
  vm_compute. reflexivity.
Defined.

Lemma api_key_is_a_shortcut_witness :
  @ClientManager_configure Sample.library module_manager (Sample.with_key "K1")
    Sample.start =
  @ClientManager_configure Sample.library module_manager
    {| arg_api_key := None; arg_credentials := None; arg_transport := None;
       arg_client_options :=
         Some (OptionsObject {| api_key := Some "K1"; other_options := [] |});
       arg_client_info := None; arg_default_metadata := [] |}
    Sample.start.
Proof.
  apply (@api_key_is_a_shortcut Sample.library module_manager
           (Sample.with_key "K1") Sample.start "K1").
  - discriminate.
  - reflexivity.
  - reflexivity.
Defined.

Lemma given_key_wins_over_environment_witness :
  environ Sample.start !! "GOOGLE_API_KEY" = Some "Z"
  ∧ dict_get "client_options" (client_config (manager Sample.K1_world module_manager)) =
      Some (VClientOptions {| api_key := Some "K1"; other_options := [] |}).
Proof.
  split; [reflexivity|].
  apply (@given_key_wins_over_environment Sample.library module_manager
           (Sample.with_key "K1") Sample.start Sample.K1_world
           ClientOptions_default).
  - vm_compute. reflexivity.
  - reflexivity.
  - left. by eexists.
Defined.

Lemma unknown_service_raises_witness :
  ∃ msg,
    @ClientManager_get_default_client Sample.library module_manager "Tuning"
      Sample.K1_cached_world =
      (Sample.K1_cached_world, Raised (AttributeError msg)).
Proof.
  apply (@unknown_service_raises Sample.library module_manager "Tuning"
           Sample.K1_cached_world);
    vm_compute; reflexivity.
Defined.

Lemma module_manager_always_configured_witness :
  client_config (_client_manager Sample.K1_cached_world) ≠ []
  ∧ @before_construction Sample.library module_manager Sample.K1_cached_world =
      Sample.K1_cached_world.
Proof.
  apply (@module_manager_always_configured Sample.library Sample.env_Z
           Sample.K1_cached_world).
  apply (@reachable_step Sample.library Sample.env_Z Sample.K1_world).
  - apply (@reachable_step Sample.library Sample.env_Z Sample.start).
    + apply reachable_import.
    + apply (@step_configure Sample.library module_manager (Sample.with_key "K1")).
  - apply (@step_get_default_client Sample.library module_manager "generative").
Defined.

Lemma lookup_never_evicts_witness :
  clients
    (manager
       (fst (@ClientManager_get_default_client Sample.library module_manager
               "Text" Sample.K1_cached_world))
       module_manager) !! "generative" = Some Sample.client_A.
Proof.
  apply (@lookup_never_evicts Sample.library module_manager "Text"
           Sample.K1_cached_world "generative" Sample.client_A).
  - intros Hnil. vm_compute in Hnil. discriminate Hnil.
  - vm_compute. reflexivity.
Defined.

Lemma operations_client_reuses_cached_model_witness :
  ∃ w',
    @ClientManager_get_default_operations_client Sample.library module_manager
      Scenario.model_world =
      (w', Returned (transport_operations_client Scenario.model_client))
    ∧ clients (manager w' module_manager) !! "operations" =
        Some (transport_operations_client Scenario.model_client)
    ∧ clients (manager w' module_manager) !! "model" = Some Scenario.model_client
    ∧ next_id w' = next_id Scenario.model_world.
Proof.
  apply (@operations_client_reuses_cached_model Sample.library module_manager
           Scenario.model_world Scenario.model_client);
    vm_compute; reflexivity.
Defined.

Lemma make_client_does_not_cache_witness :
  let outcome := @ClientManager_make_client Sample.library module_manager "text"
               Sample.K1_cached_world in
  clients (manager (fst outcome) module_manager) =
    clients (manager Sample.K1_cached_world module_manager)
  ∧ ∀ c, snd outcome = Returned c →
      client_id c = next_id Sample.K1_cached_world
      ∧ next_id (fst outcome) = S (next_id Sample.K1_cached_world).
Proof.
  apply (@make_client_does_not_cache Sample.library module_manager "text"
           Sample.K1_cached_world).
  - intros Hnil. vm_compute in Hnil. discriminate Hnil.
  - apply surjective_pairing.
Defined.

Lemma wrapper_skips_reserved_and_class_level_witness :
  call Sample.metadata_world (getattr Sample.wrapped_generative "_validate")
    ["request"] [] [("c", "2")] =
    {| inv_owner := 0; inv_operation := "_validate"; inv_args := ["request"];
       inv_kwargs := []; inv_metadata := [("c", "2")] |}.
Proof.
  apply (@wrapper_skips_reserved_and_class_level Sample.library module_manager
           "generative" Sample.metadata_world (allocate Sample.metadata_world)
           Sample.wrapped_generative "_validate" Sample.metadata_world
           ["request"] [] [("c", "2")]).
  - vm_compute. reflexivity.
  - left. reflexivity.
Defined.

Lemma names_are_case_insensitive_witness :
  @ClientManager_get_default_client Sample.library module_manager "GENERATIVE"
    Sample.K1_cached_world =
    (Sample.K1_cached_world, Returned Sample.client_A).
Proof.
  apply (@names_are_case_insensitive Sample.library module_manager
           "Generative" "GENERATIVE" Sample.K1_world Sample.K1_cached_world
           Sample.client_A).
  - reflexivity.
  - vm_compute. reflexivity.
Defined.

Lemma async_names_use_the_first_word_witness :
  @glm Sample.library (PyStr.title "generative" ++ "ServiceAsyncClient") =
    Some Scenario.generative_async_class.
Proof.
  apply (@async_names_use_the_first_word Sample.library module_manager
           "generative" "v2_async" Sample.start (allocate Sample.start)
           (new_client Sample.start Scenario.generative_async_class
              (client_config (_client_manager Sample.start)))).
  - unfold no_underscore. cbn. repeat constructor; discriminate.
  - reflexivity.
  - vm_compute. reflexivity.
Defined.

Lemma constructed_client_is_new_witness :
  client_id (root_client Sample.client_A) < client_id (root_client Scenario.text_client).
Proof.
  apply (@constructed_client_is_new Sample.library module_manager "text"
           Sample.K1_cached_world
           (fst (@ClientManager_get_default_client Sample.library module_manager
                   "text" Sample.K1_cached_world))
           Scenario.text_client Sample.text_class)
    with (r := module_manager) (key := "generative").
  - apply invariant_cache_allocated.
    apply (@reachable_invariant Sample.library Sample.env_Z).
    apply (@reachable_step Sample.library Sample.env_Z Sample.K1_world).
    + apply (@reachable_step Sample.library Sample.env_Z Sample.start).
      * apply reachable_import.
      * apply (@step_configure Sample.library module_manager (Sample.with_key "K1")).
    + apply (@step_get_default_client Sample.library module_manager "generative").
  - vm_compute. reflexivity.
  - vm_compute. reflexivity.
  - vm_compute. reflexivity.
  - vm_compute. reflexivity.
  - vm_compute. reflexivity.
Defined.

Lemma batched_sizes_witness :
  Forall (λ b, (0 < Z.of_nat (List.length b) ≤ 3)%Z) [[1; 2; 3]; [4; 5; 6]; [7]]
  ∧ ∀ i b, [[1; 2; 3]; [4; 5; 6]; [7]] !! i = Some b →
      S i < List.length [[1; 2; 3]; [4; 5; 6]; [7]] →
      Z.of_nat (List.length b) = 3%Z.
Proof.
  apply (@batched_sizes nat Scenario.seven 3 [[1; 2; 3]; [4; 5; 6]; [7]]).
  reflexivity.
Defined.

Lemma batched_count_witness :
  Z.of_nat (List.length [[1; 2; 3]; [4; 5; 6]; [7]]) =
    ((Z.of_nat (List.length Scenario.seven) + 3 - 1) / 3)%Z
  ∧ (Scenario.seven = [] → [[1; 2; 3]; [4; 5; 6]; [7]] = []).
Proof.
  apply (@batched_count nat Scenario.seven 3 [[1; 2; 3]; [4; 5; 6]; [7]]).
  reflexivity.
Defined.

Lemma category_set_is_checked_per_entry_witness :
  SafetyTypes.normalize_safety_settings SafetyTypes.NoSettings "both" = inr None
  ∧ SafetyTypes.normalize_safety_settings (SafetyTypes.EasySafetySetting []) "both"
      = inr (Some [])
  ∧ SafetyTypes.normalize_safety_settings (SafetyTypes.LooseSettings []) "both"
      = inr (Some [])
  ∧ SafetyTypes.to_easy_safety_dict (SafetyTypes.EasySafetySetting []) "both"
      = inr []
  ∧ ∀ item items,
      SafetyTypes.normalize_safety_settings
        (SafetyTypes.EasySafetySetting (item :: items)) "both" =
        inl (SafetyTypes.ValueError "harm_category_set must be 'new' or 'old'")
      ∧ SafetyTypes.to_easy_safety_dict
          (SafetyTypes.EasySafetySetting (item :: items)) "both" =
          inl (SafetyTypes.ValueError "harm_category_set must be 'new' or 'old'").
Proof.
  apply (category_set_is_checked_per_entry "both"); discriminate.
Defined.

Lemma easy_dict_last_setting_wins_witness :
  let d := [ (SafetyTypes.HARM_CATEGORY_SEXUALLY_EXPLICIT, SafetyTypes.BLOCK_ONLY_HIGH);
             (SafetyTypes.HARM_CATEGORY_HATE_SPEECH, SafetyTypes.BLOCK_NONE) ] in
  NoDup d.*1
  ∧ ∀ l, SafetyTypes.normalize_safety_settings Scenario.easy_settings "new" =
           inr (Some l) →
      ∀ c, getitem d c = getitem (setting_pairs l) c.
Proof.
  apply (easy_dict_last_setting_wins Scenario.easy_settings "new").
  reflexivity.
Defined.
